(** * A shallow embedding of the Syracuse open-data ETL ([syr_open_data.py])
    and of the violation summarizer ([streamlit.py]).

    Model overview:
    - Python values decoded from the feature-service JSON are [json];
      Python exceptions are [exn], and fallible code returns [res].
    - Datetimes are naive instants counted in milliseconds since the epoch ([Z]).
    - A pandas DataFrame is a column-major [frame]; a SQLite database is an
      association list from table names to [table]s.
    - The HTTP endpoint is a function from the requested URL to a [response];
      the pager returns the list of URLs it requested alongside its outcome.
    - Library primitives with no code in this repository (pandas' [to_datetime],
      SQLite's [MAX]) are written out for the value shapes the pipeline handles. *)

From Stdlib Require Import String Ascii List ZArith Bool Lia.
Import ListNotations.
Set Warnings "-register-all".
Open Scope Z_scope.
Open Scope string_scope.

(** ** Python values and exceptions *)

Inductive exn :=
| RequestException
| JSONDecodeError
| KeyError
| TypeError
| IndexError
| AttributeError
| ValueError
| SqliteError.

Definition exn_eqb (a b : exn) : bool :=
  match a, b with
  | RequestException, RequestException | JSONDecodeError, JSONDecodeError
  | KeyError, KeyError | TypeError, TypeError | IndexError, IndexError
  | AttributeError, AttributeError | ValueError, ValueError
  | SqliteError, SqliteError => true
  | _, _ => false
  end.

(** Values produced by [response.json()] (numbers are integers). *)
Inductive json :=
| JNull
| JBool (b : bool)
| JInt (z : Z)
| JStr (s : string)
| JArr (l : list json)
| JObj (kv : list (string * json)).

(** Fallible computations: a value or a raised exception. *)
Inductive res (A : Type) :=
| Ok (a : A)
| Raise (e : exn).
Arguments Ok {A} a.
Arguments Raise {A} e.

Definition res_bind {A B} (m : res A) (k : A -> res B) : res B :=
  match m with
  | Ok a => k a
  | Raise e => Raise e
  end.

Notation "x <- m ;; k" := (res_bind m (fun x => k))
  (at level 61, m at next level, right associativity).

Fixpoint res_map {A B} (f : A -> res B) (l : list A) : res (list B) :=
  match l with
  | [] => Ok []
  | x :: l' => y <- f x ;; ys <- res_map f l' ;; Ok (y :: ys)
  end.

(** Python truthiness. *)
Definition truthy (v : json) : bool :=
  match v with
  | JNull => false
  | JBool b => b
  | JInt z => negb (Z.eqb z 0)
  | JStr s => negb (String.eqb s "")
  | JArr l => negb (List.length l =? 0)%nat
  | JObj kv => negb (List.length kv =? 0)%nat
  end.

Fixpoint assoc {A} (k : string) (l : list (string * A)) : option A :=
  match l with
  | [] => None
  | (k', v) :: l' => if String.eqb k k' then Some v else assoc k l'
  end.

(** [d[k] = v] on a Python dict: an existing key keeps its position, a new key
    goes last. *)
Fixpoint assoc_set {A} (k : string) (v : A) (l : list (string * A)) : list (string * A) :=
  match l with
  | [] => [(k, v)]
  | (k', v') :: l' => if String.eqb k k' then (k, v) :: l' else (k', v') :: assoc_set k v l'
  end.

(** Removal of a key (a dropped table). *)
Fixpoint assoc_del {A} (k : string) (l : list (string * A)) : list (string * A) :=
  match l with
  | [] => []
  | (k', v') :: l' => if String.eqb k k' then assoc_del k l' else (k', v') :: assoc_del k l'
  end.

(** Characters of a string, each as a one-character string. *)
Fixpoint chars (s : string) : list string :=
  match s with
  | EmptyString => []
  | String c s' => String c EmptyString :: chars s'
  end.

Definition contains (sub s : string) : bool :=
  match String.index 0 sub s with Some _ => true | None => false end.

(** [k in v] for a string [k]. *)
Definition py_in (k : string) (v : json) : res bool :=
  match v with
  | JObj kv => Ok (match assoc k kv with Some _ => true | None => false end)
  | JArr l => Ok (existsb (fun x => match x with JStr s => String.eqb s k | _ => false end) l)
  | JStr s => Ok (contains k s)
  | _ => Raise TypeError
  end.

(** [v[k]] for a string key [k]. *)
Definition getitem (v : json) (k : string) : res json :=
  match v with
  | JObj kv => match assoc k kv with Some x => Ok x | None => Raise KeyError end
  | _ => Raise TypeError
  end.

(** [v[i]] for an integer index [i >= 0]. *)
Definition getidx (v : json) (i : nat) : res json :=
  match v with
  | JArr l => match nth_error l i with Some x => Ok x | None => Raise IndexError end
  | JStr s => match nth_error (chars s) i with Some c => Ok (JStr c) | None => Raise IndexError end
  | JObj _ => Raise KeyError
  | _ => Raise TypeError
  end.

(** [v.get(k, default)]: only dicts have [get]. *)
Definition dict_get (v : json) (k : string) (default : json) : res json :=
  match v with
  | JObj kv => Ok (match assoc k kv with Some x => x | None => default end)
  | _ => Raise AttributeError
  end.

(** [v[k] = x]; returns the updated dict. *)
Definition setitem (v : json) (k : string) (x : json) : res json :=
  match v with
  | JObj kv => Ok (JObj (assoc_set k x kv))
  | _ => Raise TypeError
  end.

(** [for x in v]. *)
Definition py_iter (v : json) : res (list json) :=
  match v with
  | JArr l => Ok l
  | JObj kv => Ok (map (fun p => JStr (fst p)) kv)
  | JStr s => Ok (map JStr (chars s))
  | _ => Raise TypeError
  end.

(** ** Strings: decimal printing, lower-casing *)

Definition digit_char (n : N) : ascii := ascii_of_N (48 + n).

Fixpoint string_of_N_aux (fuel : nat) (n : N) (acc : string) : string :=
  match fuel with
  | O => acc
  | S fuel' =>
      let acc' := String (digit_char (N.modulo n 10)) acc in
      let q := N.div n 10 in
      if N.eqb q 0 then acc' else string_of_N_aux fuel' q acc'
  end.

Definition string_of_N (n : N) : string := string_of_N_aux (S (N.size_nat n)) n "".

(** [str(z)] for a Python int. *)
Definition string_of_Z (z : Z) : string :=
  if Z.ltb z 0 then "-" ++ string_of_N (Z.to_N (- z)) else string_of_N (Z.to_N z).

Fixpoint repeat_char (c : ascii) (n : nat) : string :=
  match n with O => "" | S n' => String c (repeat_char c n') end.

(** Zero-padded decimal of a non-negative number, at least [w] digits. *)
Definition pad (w : nat) (z : Z) : string :=
  let s := string_of_Z z in
  repeat_char "0"%char (w - String.length s) ++ s.

Definition lower_ascii (c : ascii) : ascii :=
  let n := N_of_ascii c in
  if andb (N.leb 65 n) (N.leb n 90) then ascii_of_N (n + 32) else c.

Fixpoint lower (s : string) : string :=
  match s with
  | EmptyString => EmptyString
  | String c s' => String (lower_ascii c) (lower s')
  end.

(** ** Calendar arithmetic on millisecond instants *)

Definition ms_per_day : Z := 86400000.

Definition civil_from_days (z : Z) : Z * Z * Z :=
  let z := z + 719468 in
  let era := z / 146097 in
  let doe := z - era * 146097 in
  let yoe := (doe - doe / 1460 + doe / 36524 - doe / 146096) / 365 in
  let y := yoe + era * 400 in
  let doy := doe - (365 * yoe + yoe / 4 - yoe / 100) in
  let mp := (5 * doy + 2) / 153 in
  let d := doy - (153 * mp + 2) / 5 + 1 in
  let m := if Z.ltb mp 10 then mp + 3 else mp - 9 in
  (if Z.leb m 2 then y + 1 else y, m, d).

Definition days_from_civil (y m d : Z) : Z :=
  let y := if Z.leb m 2 then y - 1 else y in
  let era := y / 400 in
  let yoe := y - era * 400 in
  let mp := if Z.ltb 2 m then m - 3 else m + 9 in
  let doy := (153 * mp + 2) / 5 + d - 1 in
  let doe := yoe * 365 + yoe / 4 - yoe / 100 + doy in
  era * 146097 + doe - 719468.

Definition is_leap (y : Z) : bool :=
  andb (Z.eqb (y mod 4) 0) (orb (negb (Z.eqb (y mod 100) 0)) (Z.eqb (y mod 400) 0)).

Definition days_in_month (y m : Z) : Z :=
  if Z.eqb m 2 then (if is_leap y then 29 else 28)
  else if existsb (Z.eqb m) [4; 6; 9; 11] then 30 else 31.

(** [t.strftime('%Y-%m-%d')]. *)
Definition strftime_ymd (t : Z) : string :=
  let '(y, m, d) := civil_from_days (t / ms_per_day) in
  string_of_Z y ++ "-" ++ pad 2 m ++ "-" ++ pad 2 d.

(** [t.isoformat(' ')]: how a datetime cell is written to a SQLite TEXT column
    (the adapter pandas registers for [datetime] values always writes the
    time, and the fraction only when it is not zero). *)
Definition isoformat (t : Z) : string :=
  let '(y, m, d) := civil_from_days (t / ms_per_day) in
  let r := t mod ms_per_day in
  let frac := r mod 1000 in
  pad 4 y ++ "-" ++ pad 2 m ++ "-" ++ pad 2 d ++ " " ++
  pad 2 (r / 3600000) ++ ":" ++ pad 2 ((r / 60000) mod 60) ++ ":" ++ pad 2 ((r / 1000) mod 60) ++
  (if Z.eqb frac 0 then "" else "." ++ pad 6 (frac * 1000)).



(** ** Parsing timestamps *)

Notation "x <-? m ;; k" := (match m with Some x => k | None => None end)
  (at level 61, m at next level, right associativity).

Definition is_digit (c : ascii) : bool :=
  let n := N_of_ascii c in andb (N.leb 48 n) (N.leb n 57).

Definition digit_val (c : ascii) : Z := Z.of_N (N_of_ascii c) - 48.

(** Exactly [n] decimal digits. *)
Fixpoint take_digits (n : nat) (s : string) (acc : Z) : option (Z * string) :=
  match n with
  | O => Some (acc, s)
  | S n' =>
      match s with
      | String c s' => if is_digit c then take_digits n' s' (acc * 10 + digit_val c) else None
      | EmptyString => None
      end
  end.

(** One or two decimal digits, longest first. *)
Definition take_1_2 (s : string) : option (Z * string) :=
  match s with
  | String c1 s1 =>
      if is_digit c1 then
        match s1 with
        | String c2 s2 =>
            if is_digit c2 then Some (digit_val c1 * 10 + digit_val c2, s2)
            else Some (digit_val c1, s1)
        | EmptyString => Some (digit_val c1, s1)
        end
      else None
  | EmptyString => None
  end.

Definition expect (c : ascii) (s : string) : option string :=
  match s with
  | String c' s' => if Ascii.eqb c c' then Some s' else None
  | EmptyString => None
  end.

Definition is_space (c : ascii) : bool :=
  orb (Ascii.eqb c " "%char) (Ascii.eqb c (ascii_of_nat 9)).

Fixpoint skip_spaces (s : string) : string :=
  match s with
  | String c s' => if is_space c then skip_spaces s' else s
  | EmptyString => s
  end.

(** At least one whitespace character, as [\s+] in the format's regex. *)
Definition spaces1 (s : string) : option string :=
  match s with
  | String c s' => if is_space c then Some (skip_spaces s') else None
  | EmptyString => None
  end.

Definition in_range (lo x hi : Z) : bool := andb (Z.leb lo x) (Z.leb x hi).

(** [strptime] with the format ['%m/%d/%Y - %I:%M%p'] of the cityline columns;
    [None] is a value that does not match the format. *)
Definition strptime_cityline (s : string) : option Z :=
  m_s <-? take_1_2 s ;; let (m, s) := m_s in
  s <-? expect "/" s ;;
  d_s <-? take_1_2 s ;; let (d, s) := d_s in
  s <-? expect "/" s ;;
  y_s <-? take_digits 4 s 0 ;; let (y, s) := y_s in
  s <-? spaces1 s ;;
  s <-? expect "-" s ;;
  s <-? spaces1 s ;;
  h_s <-? take_1_2 s ;; let (h, s) := h_s in
  s <-? expect ":" s ;;
  mi_s <-? take_1_2 s ;; let (mi, s) := mi_s in
  pm <-? (match lower s with
          | "am" => Some false
          | "pm" => Some true
          | _ => None
          end) ;;
  if andb (andb (in_range 1 m 12) (in_range 1 y 9999))
          (andb (in_range 1 d (days_in_month y m))
                (andb (in_range 1 h 12) (in_range 0 mi 59)))
  then Some (days_from_civil y m d * ms_per_day
             + ((h mod 12) + (if pm then 12 else 0)) * 3600000 + mi * 60000)
  else None.

(** [pd.to_datetime] of a TEXT value read back from SQLite: an ISO date,
    optionally followed by a time after a space or a ['T'], with an optional
    six-digit fraction (the shapes [isoformat] and [isodate] write); other
    text is a parse error.  Out of the [Timestamp] range pandas raises, which
    the callers catch; the model returns the instant. *)
Definition parse_iso (s : string) : option Z :=
  y_s <-? take_digits 4 s 0 ;; let (y, s) := y_s in
  s <-? expect "-" s ;;
  m_s <-? take_digits 2 s 0 ;; let (m, s) := m_s in
  s <-? expect "-" s ;;
  d_s <-? take_digits 2 s 0 ;; let (d, s) := d_s in
  if negb (andb (in_range 1 m 12) (in_range 1 d (days_in_month y m))) then None else
  let day := days_from_civil y m d * ms_per_day in
  match s with
  | EmptyString => Some day
  | String sep s =>
      if negb (orb (Ascii.eqb sep " ") (Ascii.eqb sep "T")) then None else
      h_s <-? take_digits 2 s 0 ;; let (h, s) := h_s in
      s <-? expect ":" s ;;
      mi_s <-? take_digits 2 s 0 ;; let (mi, s) := mi_s in
      s <-? expect ":" s ;;
      se_s <-? take_digits 2 s 0 ;; let (se, s) := se_s in
      us <-? (match s with
              | EmptyString => Some 0
              | _ => s <-? expect "." s ;;
                     us_s <-? take_digits 6 s 0 ;; let (us, s) := us_s in
                     match s with EmptyString => Some us | _ => None end
              end) ;;
      if andb (in_range 0 h 23) (andb (in_range 0 mi 59) (in_range 0 se 59))
      then Some (day + h * 3600000 + mi * 60000 + se * 1000 + us / 1000)
      else None
  end.

(** ** Query Builder *)

(** A value of the request-parameter dict: a string, or the int offset and
    page size the pager stores. *)
Inductive pval :=
| PStr (s : string)
| PInt (z : Z).

Definition str_pval (v : pval) : string :=
  match v with
  | PStr s => s
  | PInt z => string_of_Z z
  end.

Definition params := list (string * pval).

(** The entries between ["where"] and ["f"], identical in both dict literals of
    the source ([build_query_params] and the id branch of [fetch_and_load_data]). *)
Definition fixed_params : params :=
  [("objectIds", PStr ""); ("geometry", PStr "");
   ("geometryType", PStr "esriGeometryEnvelope"); ("inSR", PStr "");
   ("spatialRel", PStr "esriSpatialRelIntersects"); ("resultType", PStr "none");
   ("distance", PStr "0.0"); ("units", PStr "esriSRUnit_Meter");
   ("relationParam", PStr ""); ("returnGeodetic", PStr "false");
   ("outFields", PStr "*"); ("returnGeometry", PStr "true");
   ("featureEncoding", PStr "esriDefault"); ("multipatchOption", PStr "xyFootprint");
   ("maxAllowableOffset", PStr ""); ("geometryPrecision", PStr "");
   ("outSR", PStr ""); ("defaultSR", PStr ""); ("datumTransformation", PStr "");
   ("applyVCSProjection", PStr "false"); ("returnIdsOnly", PStr "false");
   ("returnUniqueIdsOnly", PStr "false"); ("returnCountOnly", PStr "false");
   ("returnExtentOnly", PStr "false"); ("returnQueryGeometry", PStr "false");
   ("returnDistinctValues", PStr "false"); ("cacheHint", PStr "false");
   ("collation", PStr ""); ("orderByFields", PStr "");
   ("groupByFieldsForStatistics", PStr ""); ("outStatistics", PStr "");
   ("having", PStr ""); ("resultOffset", PStr ""); ("resultRecordCount", PStr "");
   ("returnZ", PStr "false"); ("returnM", PStr "false");
   ("returnTrueCurves", PStr "false"); ("returnExceededLimitFeatures", PStr "true");
   ("quantizationParameters", PStr ""); ("sqlFormat", PStr "none")].

Definition build_query_params (base_date_field : string) (start_date end_date : Z)
    (f : string) : params :=
  let start_date_str := strftime_ymd start_date in
  let end_date_str := strftime_ymd end_date in
  ("where", PStr (base_date_field ++ " BETWEEN '" ++ start_date_str ++ "' AND '"
                  ++ end_date_str ++ "'"))
  :: fixed_params ++ [("f", PStr f); ("token", PStr "")].

(** [base_url + "&".join(f"{key}={value}" ...)]. *)
Definition full_url (base_url : string) (ps : params) : string :=
  base_url ++ String.concat "&" (map (fun kv => fst kv ++ "=" ++ str_pval (snd kv)) ps).

(** ** Pager/Fetcher ([fetch_data]) *)

(** What [requests.get(full_url)] yields: a connection failure, or a status
    and a body that is JSON ([Some]) or not ([None]). *)
Inductive response :=
| ConnectionFailed
| HttpResponse (status : Z) (body : option json).

(** Outcome of a Python call: a returned value, an exception that escapes,
    or a loop that has not ended within the fuel given to the model. *)
Inductive outcome (A : Type) :=
| Done (a : A)
| Exn (e : exn)
| OutOfFuel.
Arguments Done {A} a.
Arguments Exn {A} e.
Arguments OutOfFuel {A}.

Definition truthy_str (s : option string) : bool :=
  match s with Some s => negb (String.eqb s "") | None => false end.

Definition truthy_bool (b : option bool) : bool :=
  match b with Some b => b | None => false end.

Definition truthy_int (z : option Z) : bool :=
  match z with Some z => negb (Z.eqb z 0) | None => false end.

(** One response: [raise_for_status], [response.json()], the end-of-data test
    and [for feature in features].  [None] is a [break] of the paging loop.
    (The nested [if] of the source only chooses which message to print before
    the [break]; it re-evaluates subterms that have already succeeded.) *)
Definition page_features (r : response) : res (option (list json)) :=
  match r with
  | ConnectionFailed => Raise RequestException
  | HttpResponse status body =>
      if andb (Z.leb 400 status) (Z.ltb status 600) then Raise RequestException else
      match body with
      | None => Raise JSONDecodeError
      | Some data =>
          stop <- (if negb (truthy data) then Ok true else
                   has <- py_in "features" data ;;
                   if negb has then Ok true else
                   fs <- getitem data "features" ;; Ok (negb (truthy fs))) ;;
          if stop then Ok None else
          features <- getitem data "features" ;;
          if negb (truthy features) then Ok None else
          feats <- py_iter features ;;
          Ok (Some feats)
      end
  end.

(** The body of [for feature in features]. *)
Definition flatten_feature (part_type : option string) (feature : json) : res json :=
  properties <- getitem feature "attributes" ;;
  geometry <- dict_get feature "geometry" (JObj []) ;;
  properties <-
    (if truthy geometry then
       coordinates <- dict_get geometry "coordinates" (JArr []) ;;
       if truthy coordinates then
         lon <- getidx coordinates 0 ;;
         properties <- setitem properties "longitude" lon ;;
         lat <- getidx coordinates 1 ;;
         setitem properties "latitude" lat
       else Ok properties
     else Ok properties) ;;
  match part_type with
  | Some p => if truthy_str part_type then setitem properties "part" (JStr p) else Ok properties
  | None => Ok properties
  end.

(** Python's [l[:z]]. *)
Definition py_slice_to {A} (l : list A) (z : Z) : list A :=
  firstn (Z.to_nat (if Z.ltb z 0 then Z.of_nat (List.length l) + z else z)) l.

Definition record_limit : Z := 1000.

(** [params["resultOffset"] = offset; params["resultRecordCount"] = record_limit]. *)
Definition page_params (ps : params) (offset : Z) : params :=
  assoc_set "resultRecordCount" (PInt record_limit) (assoc_set "resultOffset" (PInt offset) ps).

(** The [while True] loop; [fuel] bounds the number of requests modelled.
    Besides its outcome it returns the URLs requested, in order. *)
Fixpoint fetch_loop (fuel : nat) (http : string -> response) (base_url : string)
    (ps : params) (part_type : option string) (paginate : bool)
    (max_records : option Z) (all_records : list json) (offset : Z)
    (trace : list string) : outcome (list json) * list string :=
  match fuel with
  | O => (OutOfFuel, trace)
  | S fuel' =>
      let ps := if paginate then page_params ps offset else ps in
      let url := full_url base_url ps in
      let trace := (trace ++ [url])%list in
      match page_features (http url) with
      | Raise e => (Exn e, trace)
      | Ok None => (Done all_records, trace)
      | Ok (Some features) =>
          match res_map (flatten_feature part_type) features with
          | Raise e => (Exn e, trace)
          | Ok records =>
              let all_records := (all_records ++ records)%list in
              match max_records with
              | Some cap =>
                  if andb (truthy_int max_records)
                          (Z.leb cap (Z.of_nat (List.length all_records)))
                  then (Done (py_slice_to all_records cap), trace)
                  else if negb paginate then (Done all_records, trace)
                  else fetch_loop fuel' http base_url ps part_type paginate max_records
                         all_records (offset + record_limit) trace
              | None =>
                  if negb paginate then (Done all_records, trace)
                  else fetch_loop fuel' http base_url ps part_type paginate max_records
                         all_records (offset + record_limit) trace
              end
          end
      end
  end.

(** The exception types the [try] of [fetch_data] catches. *)
Definition caught (e : exn) : bool :=
  existsb (exn_eqb e) [RequestException; JSONDecodeError; KeyError; TypeError].

(** ** DataFrames *)

(** A cell of a DataFrame: a decoded JSON value, the [NaN] that fills a key a
    record lacks, a datetime, or the missing datetime [NaT]. *)
Inductive cell :=
| CVal (v : json)
| CNaN
| CDate (t : Z)
| CNaT.

(** A DataFrame, column-major: row count and named columns in order. *)
Record frame := mkFrame {
  nrows : nat;
  columns : list (string * list cell)
}.

(** [df.empty]: no rows or no columns. *)
Definition df_empty (df : frame) : bool :=
  orb (Nat.eqb (nrows df) 0) (match columns df with [] => true | _ => false end).

Fixpoint union_keys (acc : list string) (recs : list (list (string * json))) : list string :=
  match recs with
  | [] => acc
  | kv :: recs' =>
      union_keys (fold_left (fun acc k => if existsb (String.eqb k) acc then acc
                                          else (acc ++ [k])%list) (map fst kv) acc) recs'
  end.

(** [pd.DataFrame(all_records)] for a list of dicts: columns in order of first
    appearance, a missing key gives [NaN].  Records that are not all dicts are
    outside the model and raise. *)
Definition frame_of_records (recs : list json) : res frame :=
  kvs <- res_map (fun r => match r with JObj kv => Ok kv | _ => Raise ValueError end) recs ;;
  Ok (mkFrame (List.length recs)
        (map (fun k => (k, map (fun kv => match assoc k kv with
                                         | Some v => CVal v
                                         | None => CNaN
                                         end) kvs))
             (union_keys [] kvs))).

Inductive dtype := DInt64 | DBool | DFloat64 | DDatetime | DObject.

Definition dtype_eqb (a b : dtype) : bool :=
  match a, b with
  | DInt64, DInt64 | DBool, DBool | DFloat64, DFloat64
  | DDatetime, DDatetime | DObject, DObject => true
  | _, _ => false
  end.

Definition is_int64 (c : cell) : bool :=
  match c with
  | CVal (JInt z) => in_range (- 2 ^ 63) z (2 ^ 63 - 1)
  | _ => false
  end.

Definition is_bool_cell (c : cell) : bool :=
  match c with CVal (JBool _) => true | _ => false end.

Definition is_missing (c : cell) : bool :=
  match c with CNaN | CVal JNull => true | _ => false end.

Definition is_datetime_cell (c : cell) : bool :=
  match c with CDate _ | CNaT => true | _ => false end.

(** The dtype pandas infers for a column: ints that fit int64 give [int64];
    ints mixed with missing values give [float64]; otherwise [object]. *)
Definition col_dtype (cells : list cell) : dtype :=
  if forallb is_int64 cells then DInt64
  else if forallb is_bool_cell cells then DBool
  else if andb (forallb (fun c => orb (is_int64 c) (is_missing c)) cells)
               (existsb is_int64 cells) then DFloat64
  else if forallb is_datetime_cell cells then DDatetime
  else DObject.

(** [df[field]]. *)
Definition column (df : frame) (field : string) : option (list cell) :=
  assoc field (columns df).

(** [df[field] = g(df[field])]. *)
Definition set_column (field : string) (g : list cell -> list cell) (df : frame) : frame :=
  mkFrame (nrows df)
    (map (fun kc => if String.eqb (fst kc) field then (fst kc, g (snd kc)) else kc)
         (columns df)).

(** [pd.to_datetime(x, unit='ms')] on an int64 cell. *)
Definition to_datetime_ms (c : cell) : cell :=
  match c with
  | CVal (JInt z) => CDate z
  | _ => c
  end.

(** [pd.to_datetime(x, format='%m/%d/%Y - %I:%M%p', errors='coerce')]. *)
Definition to_datetime_cityline (c : cell) : cell :=
  match c with
  | CVal (JStr s) => match strptime_cityline s with Some t => CDate t | None => CNaT end
  | CDate t => CDate t
  | _ => CNaT
  end.

Definition is_date_name (col : string) : bool := contains "date" (lower col).

Definition date_fields (df : frame) : list string :=
  filter is_date_name (map fst (columns df)).

Definition convert_ms_field (df : frame) (field : string) : frame :=
  match column df field with
  | Some cells =>
      if dtype_eqb (col_dtype cells) DInt64 then set_column field (map to_datetime_ms) df
      else df
  | None => df
  end.

Definition date_fields_cityline : list string :=
  ["Created_at_local"; "Acknowledged_at_local"; "Closed_at_local"].

Definition convert_cityline_field (df : frame) (field : string) : frame :=
  if existsb (String.eqb field) (map fst (columns df))
  then set_column field (map to_datetime_cityline) df
  else df.

(** The date normalisation at the end of [fetch_data]. *)
Definition postprocess (table_name : string) (df : frame) : frame :=
  let df := fold_left convert_ms_field (date_fields df) df in
  if String.eqb table_name "cityline_requests"
  then fold_left convert_cityline_field date_fields_cityline df
  else df.

(** [fetch_data(base_url, params, part_type, paginate, max_records, table_name)]:
    the URLs requested, and [Done None], [Done (Some df)] or an escaping
    exception. *)
Definition fetch_data (fuel : nat) (http : string -> response) (base_url : string)
    (ps : params) (part_type : option string) (paginate : option bool)
    (max_records : option Z) (table_name : string) : outcome (option frame) * list string :=
  let '(o, trace) := fetch_loop fuel http base_url ps part_type (truthy_bool paginate)
                       max_records [] 0 [] in
  (match o with
   | OutOfFuel => OutOfFuel
   | Exn e => if caught e then Done None else Exn e
   | Done [] => Done None
   | Done all_records =>
       match frame_of_records all_records with
       | Ok df => Done (Some (postprocess table_name df))
       | Raise e => Exn e
       end
   end, trace).

(** ** The SQLite store *)

Inductive sqlval :=
| SNull
| SInt (z : Z)
| SReal (z : Z)  (** a REAL holding the integral value [z] *)
| SText (s : string).

Record table := mkTable {
  tcols : list string;
  trows : list (list sqlval)
}.

(** The database behind [conn]: tables by name. *)
Definition db := list (string * table).

Inductive if_exists := Replace | Append.

(** SQLite compares identifiers without regard to ASCII case. *)
Definition name_eqb (a b : string) : bool := String.eqb (lower a) (lower b).

Fixpoint assoc_ci {A} (k : string) (l : list (string * A)) : option A :=
  match l with
  | [] => None
  | (k', v) :: l' => if name_eqb k k' then Some v else assoc_ci k l'
  end.

Definition bool_int (b : bool) : Z := if b then 1 else 0.

(** How [to_sql] binds one cell of a column of the given dtype. *)
Definition sql_of_cell (dt : dtype) (c : cell) : res sqlval :=
  match c with
  | CNaN | CNaT | CVal JNull => Ok SNull
  | CVal (JInt z) =>
      match dt with
      | DFloat64 => Ok (SReal z)
      | _ => if in_range (- 2 ^ 63) z (2 ^ 63 - 1) then Ok (SInt z) else Raise SqliteError
      end
  | CVal (JBool b) => Ok (SInt (bool_int b))
  | CVal (JStr s) => Ok (SText s)
  | CDate t => Ok (SText (isoformat t))
  | CVal (JArr _) | CVal (JObj _) => Raise SqliteError
  end.

Definition rows_of (n : nat) (cols : list (string * list sqlval)) : list (list sqlval) :=
  map (fun i => map (fun kc => nth i (snd kc) SNull) cols) (seq 0 n).

Fixpoint dup_ci (names : list string) : bool :=
  match names with
  | [] => false
  | n :: ns => orb (existsb (name_eqb n) ns) (dup_ci ns)
  end.

(** [CREATE TABLE] needs at least one column and distinct column names. *)
Definition create_ok (names : list string) : bool :=
  andb (negb (Nat.eqb (List.length names) 0)) (negb (dup_ci names)).

(** [df.to_sql(table_name, conn, if_exists=mode, index=False)]: replace drops
    and recreates the table; append inserts by column name into an existing
    table (a column the table lacks is an error; a table column the frame
    lacks gets NULL) and creates the table when there is none.  This is the
    database after a call that succeeds; [to_sql_failed] is the one after a
    call that raises. *)
Definition to_sql (df : frame) (name : string) (mode : if_exists) (d : db) : res db :=
  cols <- res_map (fun kc => vs <- res_map (sql_of_cell (col_dtype (snd kc))) (snd kc) ;;
                             Ok (fst kc, vs)) (columns df) ;;
  let names := map fst cols in
  let rows := rows_of (nrows df) cols in
  match mode, assoc name d with
  | Append, Some t =>
      if forallb (fun c => existsb (name_eqb c) (tcols t)) names then
        let newrows := map (fun r => map (fun tc => match assoc_ci tc (combine names r) with
                                                  | Some v => v
                                                  | None => SNull
                                                  end) (tcols t)) rows in
        Ok (assoc_set name (mkTable (tcols t) (trows t ++ newrows)%list) d)
      else Raise SqliteError
  | _, _ =>
      if create_ok names then Ok (assoc_set name (mkTable names rows) d)
      else Raise SqliteError
  end.

(** The database after a [to_sql] call that raises.  pandas runs the
    [DROP TABLE] and [CREATE TABLE] of a replace (or the [CREATE TABLE] of an
    append to a missing table) outside the insert transaction, so they stay
    committed: the table is gone when the create fails and empty when the
    insert fails.  A failed append to an existing table is rolled back. *)
Definition to_sql_failed (df : frame) (name : string) (mode : if_exists) (d : db) : db :=
  match mode, assoc name d with
  | Append, Some _ => d
  | _, _ =>
      let names := map fst (columns df) in
      if create_ok names then assoc_set name (mkTable names []) d else assoc_del name d
  end.

(** ** Loader *)

(** [load_dataframe_to_sqlite]: every exception of [to_sql] is caught and
    logged; the function returns [None] either way. *)
Definition load_dataframe_to_sqlite (df : frame) (table_name : string) (conn : db)
    (mode : if_exists) : outcome unit * db :=
  match to_sql df table_name mode conn with
  | Ok conn' => (Done tt, conn')
  | Raise _ => (Done tt, to_sql_failed df table_name mode conn)
  end.

(** ** Watermark Store *)

(** SQLite's ordering for [MAX]: numbers before text. *)
Definition sql_gt (a b : sqlval) : bool :=
  match a, b with
  | (SInt x | SReal x), (SInt y | SReal y) => Z.ltb y x
  | SText _, (SInt _ | SReal _) => true
  | SText x, SText y => match String.compare x y with Gt => true | _ => false end
  | _, _ => false
  end.

Definition sql_max2 (acc v : sqlval) : sqlval :=
  match v, acc with
  | SNull, _ => acc
  | _, SNull => v
  | _, _ => if sql_gt v acc then v else acc
  end.

(** [pd.read_sql_query(f"SELECT MAX({field}) FROM {table_name}", conn).iloc[0, 0]];
    a missing table or column raises. *)
Definition sql_max (conn : db) (table_name field : string) : res sqlval :=
  match assoc table_name conn with
  | None => Raise SqliteError
  | Some t =>
      match assoc_ci field (combine (tcols t) (seq 0 (List.length (tcols t)))) with
      | None => Raise SqliteError
      | Some i => Ok (fold_left sql_max2 (map (fun r => nth i r SNull) (trows t)) SNull)
      end
  end.

Definition truthy_sql (v : sqlval) : bool :=
  match v with
  | SNull => false
  | SInt z | SReal z => negb (Z.eqb z 0)
  | SText s => negb (String.eqb s "")
  end.

(** [pd.to_datetime] of the value read back: text is parsed, a number counts
    nanoseconds. *)
Definition to_datetime_sql (v : sqlval) : option Z :=
  match v with
  | SText s => parse_iso s
  | SInt z | SReal z => Some (z / 1000000)
  | SNull => None
  end.

Definition get_max_date_from_sqlite (conn : db) (table_name date_field : string) : option Z :=
  match sql_max conn table_name date_field with
  | Ok v => if truthy_sql v then to_datetime_sql v else None
  | Raise _ => None
  end.

Definition get_max_id_from_sqlite (conn : db) (table_name id_field : string) : sqlval :=
  match sql_max conn table_name id_field with
  | Ok v => if truthy_sql v then v else SInt 0
  | Raise _ => SInt 0
  end.

(** ** Dataset Orchestrator ([fetch_and_load_data]) *)

(** A dataset's entry of [endpoints]; absent keys are [None]. *)
Record config := mkConfig {
  base_url : string;
  date_field : option string;
  id_field : option string;
  days_ago : option Z;
  paginate : option bool;
  part_type : option string;
  max_records : option Z
}.

(** [str()] of the value [get_max_id_from_sqlite] returns. *)
Definition str_sql (v : sqlval) : string :=
  match v with
  | SNull => "None"
  | SInt z => string_of_Z z
  | SReal z => string_of_Z z ++ ".0"
  | SText s => s
  end.

(** The dict literal of the id branch. *)
Definition id_query_params (id_field : string) (max_id_in_db : sqlval) : params :=
  ("where", PStr (id_field ++ " > " ++
                  str_sql (if truthy_sql max_id_in_db then max_id_in_db else SInt 0)))
  :: fixed_params ++ [("f", PStr "pjson"); ("token", PStr "")].

(** What one call of [fetch_and_load_data] does: its outcome, the database
    afterwards, the URLs requested and the loader calls made, in order. *)
Record run := mkRun {
  r_out : outcome unit;
  r_db : db;
  r_urls : list string;
  r_loads : list (if_exists * frame)
}.

(** Load [df] with [mode] after the fetch that requested [tr]. *)
Definition load_step (df : frame) (table_name : string) (conn : db) (mode : if_exists)
    (tr : list string) : run :=
  let '(o, conn') := load_dataframe_to_sqlite df table_name conn mode in
  mkRun o conn' tr [(mode, df)].

(** The [if date_field:] branch; [now] is [datetime.now()]. *)
Definition load_by_date (fuel : nat) (http : string -> response) (key : string)
    (cfg : config) (conn : db) (now : Z) (date_f : string) : run :=
  let table_name := key in
  let max_date_in_db := get_max_date_from_sqlite conn table_name date_f in
  let today := now in
  match max_date_in_db with
  | None =>
      match days_ago cfg with
      | None => mkRun (Exn KeyError) conn [] []
      | Some days =>
          let start_date := today - days * ms_per_day in
          let ps := build_query_params date_f start_date today "pjson" in
          let '(o, tr) := fetch_data fuel http (base_url cfg) ps (part_type cfg)
                            (paginate cfg) (max_records cfg) table_name in
          match o with
          | Done (Some df) => load_step df table_name conn Replace tr
          | Done None => mkRun (Done tt) conn tr []
          | Exn e => mkRun (Exn e) conn tr []
          | OutOfFuel => mkRun OutOfFuel conn tr []
          end
      end
  | Some max_date =>
      let start_date := max_date in
      let ps := build_query_params date_f start_date today "pjson" in
      let '(o, tr) := fetch_data fuel http (base_url cfg) ps (part_type cfg)
                        (paginate cfg) (max_records cfg) table_name in
      match o with
      | Done (Some df) =>
          if negb (df_empty df) then load_step df table_name conn Append tr
          else mkRun (Done tt) conn tr []
      | Done None => mkRun (Done tt) conn tr []
      | Exn e => mkRun (Exn e) conn tr []
      | OutOfFuel => mkRun OutOfFuel conn tr []
      end
  end.

(** The [elif id_field:] branch. *)
Definition load_by_id (fuel : nat) (http : string -> response) (key : string)
    (cfg : config) (conn : db) (id_f : string) : run :=
  let table_name := key in
  let max_id_in_db := get_max_id_from_sqlite conn table_name id_f in
  let ps := id_query_params id_f max_id_in_db in
  let '(o, tr) := fetch_data fuel http (base_url cfg) ps (part_type cfg)
                    (paginate cfg) (max_records cfg) table_name in
  match o with
  | Done (Some df) =>
      if negb (df_empty df) then load_step df table_name conn Append tr
      else mkRun (Done tt) conn tr []
  | Done None => mkRun (Done tt) conn tr []
  | Exn e => mkRun (Exn e) conn tr []
  | OutOfFuel => mkRun OutOfFuel conn tr []
  end.

Definition fetch_and_load_data (fuel : nat) (http : string -> response) (key : string)
    (cfg : config) (conn : db) (now : Z) : run :=
  match date_field cfg with
  | Some date_f =>
      if truthy_str (date_field cfg) then load_by_date fuel http key cfg conn now date_f
      else match id_field cfg with
           | Some id_f => if truthy_str (id_field cfg) then load_by_id fuel http key cfg conn id_f
                          else mkRun (Done tt) conn [] []
           | None => mkRun (Done tt) conn [] []
           end
  | None =>
      match id_field cfg with
      | Some id_f => if truthy_str (id_field cfg) then load_by_id fuel http key cfg conn id_f
                     else mkRun (Done tt) conn [] []
      | None => mkRun (Done tt) conn [] []
      end
  end.

(** ** Violation Summarizer ([summarize_violations] in [streamlit.py]) *)

(** [str()] of a DataFrame cell in an f-string. *)
Definition str_cell (c : cell) : string :=
  match c with
  | CVal JNull => "None"
  | CVal (JBool b) => if b then "True" else "False"
  | CVal (JInt z) => string_of_Z z
  | CVal (JStr s) => s
  | CVal _ => "<object>"
  | CNaN => "nan"
  | CDate t => isoformat t
  | CNaT => "NaT"
  end.

Definition nl : string := String (ascii_of_nat 10) EmptyString.

(** [row[name]]: a column the frame lacks raises [KeyError]. *)
Definition row_get (df : frame) (i : nat) (name : string) : res string :=
  match column df name with
  | Some cells => Ok (str_cell (nth i cells CNaN))
  | None => Raise KeyError
  end.

Definition violation_summary (df : frame) (i : nat) : res string :=
  a <- row_get df i "violation_number" ;;
  b <- row_get df i "complaint_type_name" ;;
  c <- row_get df i "violation" ;;
  d <- row_get df i "open_date" ;;
  e <- row_get df i "violation_date" ;;
  f <- row_get df i "issued_to" ;;
  Ok ("  - Violation Number: " ++ a ++ nl ++
      "    Violation Type: " ++ b ++ nl ++
      "    Violation: " ++ c ++ nl ++
      "    Open Date: " ++ d ++ nl ++
      "    Violation Date: " ++ e ++ nl ++
      "    Issued To: " ++ f ++ nl).

Definition summary_prompt (all_violation_summaries : string) : string :=
  nl ++ "    Here's information about code violations at an address:" ++ nl ++
  "    " ++ all_violation_summaries ++ nl ++
  "    Please summarize the number of violations and provide a description of the violation types in a paragraph. " ++ nl ++
  "    ".

(** [summarize_violations(df)] with the oracle [generate_content] given as a
    function from the prompt to its reply text; returns the prompts sent to
    the oracle together with the result. *)
Definition summarize_violations (generate_content : string -> res string) (df : frame)
    : res string * list string :=
  if df_empty df then (Ok "No violations to summarize.", [])
  else
    match res_map (violation_summary df) (seq 0 (nrows df)) with
    | Raise e => (Raise e, [])
    | Ok violation_summaries =>
        let prompt := summary_prompt (String.concat nl violation_summaries) in
        (generate_content prompt, [prompt])
    end.

(** ** A feature service answering [BETWEEN] queries

    An endpoint holding dated features: it reads the [where] and
    [resultOffset]/[resultRecordCount] parameters of the requested URL and
    returns, from offset on, the features whose date lies in the window
    (both bounds inclusive, a bare date meaning its midnight). *)

Fixpoint split_on (seps : list ascii) (s : string) (cur : string) : list string :=
  match s with
  | EmptyString => [cur]
  | String c s' =>
      if existsb (Ascii.eqb c) seps then cur :: split_on seps s' ""
      else split_on seps s' (cur ++ String c EmptyString)
  end.

Definition url_param (url key : string) : option string :=
  let pre := key ++ "=" in
  match filter (String.prefix pre) (split_on ["&"%char; "?"%char] url "") with
  | seg :: _ => Some (substring (String.length pre) (String.length seg) seg)
  | [] => None
  end.

Fixpoint parse_nat_str (s : string) (acc : Z) : option Z :=
  match s with
  | EmptyString => Some acc
  | String c s' => if is_digit c then parse_nat_str s' (acc * 10 + digit_val c) else None
  end.

Definition parse_ymd (s : string) : option (Z * string) :=
  y_s <-? take_digits 4 s 0 ;; let (y, s) := y_s in
  s <-? expect "-" s ;;
  m_s <-? take_digits 2 s 0 ;; let (m, s) := m_s in
  s <-? expect "-" s ;;
  d_s <-? take_digits 2 s 0 ;; let (d, s) := d_s in
  Some (days_from_civil y m d * ms_per_day, s).

(** The window of ["<field> BETWEEN 'a' AND 'b'"]. *)
Definition parse_between (field w : string) : option (Z * Z) :=
  let pre := field ++ " BETWEEN '" in
  if String.prefix pre w then
    let w := substring (String.length pre) (String.length w) w in
    a_s <-? parse_ymd w ;; let (a, w) := a_s in
    if String.prefix "' AND '" w then
      let w := substring 7 (String.length w) w in
      b_s <-? parse_ymd w ;; let (b, w) := b_s in
      if String.eqb w "'" then Some (a, b) else None
    else None
  else None.

Definition between_server (field : string) (feats : list (Z * json)) (url : string) : response :=
  match url_param url "where" with
  | None => HttpResponse 400 None
  | Some w =>
      match parse_between field w with
      | None => HttpResponse 400 None
      | Some (a, b) =>
          let hits := map snd (filter (fun p => andb (Z.leb a (fst p)) (Z.leb (fst p) b)) feats) in
          let off := match url_param url "resultOffset" with
                     | Some s => match parse_nat_str s 0 with Some o => o | None => 0 end
                     | None => 0 end in
          let cnt := match url_param url "resultRecordCount" with
                     | Some s => match parse_nat_str s 0 with Some o => o | None => 1000 end
                     | None => 1000 end in
          let page := firstn (Z.to_nat cnt) (skipn (Z.to_nat off) hits) in
          HttpResponse 200 (Some (JObj [("features", JArr page)]))
      end
  end.

(** ** Concrete inputs *)

Definition cv_base_url : string :=
  "https://services6.arcgis.com/bdPqSfflsdgFRVVM/arcgis/rest/services/Code_Violations_V2/FeatureServer/0/query?".

(** The ["code_violations"] entry of [endpoints]. *)
Definition cv_config : config :=
  mkConfig cv_base_url (Some "violation_date") None (Some 365) (Some true) None None.

(** A violation issued on 2023-11-14 at 10:00. *)
Definition violation_ms : Z := 1699956000000.

Definition violation_feature : json :=
  JObj [("attributes", JObj [("violation_number", JInt 7001);
                             ("violation_date", JInt violation_ms)])].

Definition cv_server : string -> response :=
  between_server "violation_date" [(violation_ms, violation_feature)].

(** [datetime.now()]: 2023-11-20 at 12:00. *)
Definition now_ms : Z := 1700481600000.

Definition cv_run1 : run := fetch_and_load_data 5 cv_server "code_violations" cv_config [] now_ms.
Definition cv_run2 : run := fetch_and_load_data 5 cv_server "code_violations" cv_config (r_db cv_run1) now_ms.
Definition cv_run3 : run := fetch_and_load_data 5 cv_server "code_violations" cv_config (r_db cv_run2) now_ms.

Definition table_rows (conn : db) (name : string) : option (list (list sqlval)) :=
  match assoc name conn with Some t => Some (trows t) | None => None end.

(** A service whose every page has an empty feature list. *)
Definition empty_server (url : string) : response :=
  HttpResponse 200 (Some (JObj [("features", JArr [])])).

(** A point feature whose [coordinates] list has a single element. *)
Definition one_coordinate_server (url : string) : response :=
  HttpResponse 200 (Some (JObj [("features", JArr [
    JObj [("attributes", JObj [("OBJECTID", JInt 1)]);
          ("geometry", JObj [("coordinates", JArr [JInt 76])])]])])).

Definition cv_params : params := build_query_params "violation_date" 1668946800000 now_ms "pjson".

(** A table with one column [a], and a frame with a column [b] it lacks. *)
Definition db_a : db := [("t", mkTable ["a"] [[SInt 1]])].
Definition frame_b : frame := mkFrame 1 [("b", [CVal (JInt 2)])].


(** ** Properties the claims state, as predicates *)


(** The id branch: watermark defaulting to zero, a strict [>] predicate, and
    append-only loads exactly for a non-empty fetch result. *)
Definition id_branch_spec (fuel : nat) (http : string -> response) (key : string)
    (cfg : config) (conn : db) (now : Z) (f : string) : Prop :=
  let r := fetch_and_load_data fuel http key cfg conn now in
  let w := get_max_id_from_sqlite conn key f in
  (truthy_sql w = true \/ w = SInt 0) /\
  let ps := id_query_params f w in
  assoc "where" ps = Some (PStr (f ++ " > " ++ str_sql w)) /\
  let '(o, tr) := fetch_data fuel http (base_url cfg) ps (part_type cfg) (paginate cfg)
                    (max_records cfg) key in
  r_urls r = tr /\
  (forall m df, In (m, df) (r_loads r) -> m = Append) /\
  match o with
  | Done (Some df) =>
      if df_empty df then r_loads r = [] /\ r_db r = conn
      else r_loads r = [(Append, df)] /\
           r_db r = snd (load_dataframe_to_sqlite df key conn Append)
  | _ => r_loads r = [] /\ r_db r = conn
  end.





(** The record cap [c]: a fetch returns at most [c] rows; the page on which
    the accumulated count reaches [c] ends the paging with exactly [c]
    records; and page requests always ask for full pages. *)
Definition cap_spec (c : Z) : Prop :=
  (forall fuel http base ps part pag table_name,
     match fst (fetch_data fuel http base ps part pag (Some c) table_name) with
     | Done (Some df) => Z.of_nat (nrows df) <= c
     | _ => True
     end) /\
  (forall fuel http base ps part (pag : bool) all_records offset tr feats records,
     page_features (http (full_url base (if pag then page_params ps offset else ps)))
       = Ok (Some feats) ->
     res_map (flatten_feature part) feats = Ok records ->
     c <= Z.of_nat (List.length (all_records ++ records)) ->
     fetch_loop (S fuel) http base ps part pag (Some c) all_records offset tr
       = (Done (firstn (Z.to_nat c) (all_records ++ records)),
          (tr ++ [full_url base (if pag then page_params ps offset else ps)])%list) /\
     List.length (firstn (Z.to_nat c) (all_records ++ records)) = Z.to_nat c) /\
  (forall fuel http base ps part pag table_name,
     if truthy_bool pag then
       exists n, snd (fetch_data fuel http base ps part pag (Some c) table_name)
         = map (fun k => full_url base (page_params ps (Z.of_nat k * record_limit))) (seq 0 n)
     else True).


(** The ["cityline_requests"] entry of [endpoints]. *)
Definition cityline_config : config :=
  mkConfig "https://services6.arcgis.com/bdPqSfflsdgFRVVM/arcgis/rest/services/SYRCityline_Requests_2021_Present/FeatureServer/0/query?"
    None (Some "ObjectId") None (Some true) None None.

(** ** The [__main__] block of [syr_open_data.py] *)

Definition arcgis_services : string :=
  "https://services6.arcgis.com/bdPqSfflsdgFRVVM/arcgis/rest/services/".

(** The [endpoints] dict, in its order. *)
Definition endpoints : list (string * config) :=
  [("permits", mkConfig (arcgis_services ++ "Permit_Requests/FeatureServer/0/query?")
                 (Some "Issue_Date") None (Some 365) (Some true) None None);
   ("code_violations", mkConfig (arcgis_services ++ "Code_Violations_V2/FeatureServer/0/query?")
                 (Some "violation_date") None (Some 365) (Some true) None None);
   ("rental_registry", mkConfig (arcgis_services ++ "Syracuse_Rental_Registry/FeatureServer/0/query?")
                 (Some "RR_app_received") None (Some 365) (Some true) None None);
   ("parking_violations",
      mkConfig (arcgis_services ++ "Parking_Violations_2023_Present/FeatureServer/0/query?")
                 (Some "issued_date") None (Some 365) (Some true) None None);
   ("part_1_crimes",
      mkConfig (arcgis_services ++ "Crime_Data_2024_Part_1_Offenses_With_Lat_and_Long_Info/FeatureServer/0/query?")
                 (Some "DATEEND") None (Some 365) (Some true) (Some "Part 1") None);
   ("part_2_crimes",
      mkConfig (arcgis_services ++ "Crime_Data_2024_Part_2_Offenses_With_Lat_and_Long_Info/FeatureServer/0/query?")
                 (Some "DATEEND") None (Some 365) (Some true) (Some "Part 2") None);
   ("cityline_requests",
      mkConfig (arcgis_services ++ "SYRCityline_Requests_2021_Present/FeatureServer/0/query?")
                 None (Some "ObjectId") None (Some true) None None)].

(** [for key, config in endpoints.items(): fetch_and_load_data(key, config, conn)]
    on one connection; [now key] is [datetime.now()] during that dataset's
    call.  An exception leaves the loop (there is no [try] around it).
    Returns the outcome, the database and the URLs requested. *)
Fixpoint run_endpoints (fuel : nat) (http : string -> response) (eps : list (string * config))
    (conn : db) (now : string -> Z) : outcome unit * db * list string :=
  match eps with
  | [] => (Done tt, conn, [])
  | (key, cfg) :: rest =>
      let r := fetch_and_load_data fuel http key cfg conn (now key) in
      match r_out r with
      | Done _ =>
          let '(o, conn', urls) := run_endpoints fuel http rest (r_db r) now in
          (o, conn', (r_urls r ++ urls)%list)
      | Exn e => (Exn e, r_db r, r_urls r)
      | OutOfFuel => (OutOfFuel, r_db r, r_urls r)
      end
  end.

(** The table [fetch_data] returns for [cv_server], paginating with no cap. *)
Definition cv_frame : frame :=
  match fst (fetch_data 5 cv_server cv_base_url cv_params None (Some true) None "code_violations") with
  | Done (Some df) => df
  | _ => mkFrame 0 []
  end.

(** A one-row frame with the six columns the summary reads. *)
Definition six_column_frame : frame :=
  mkFrame 1 [("violation_number", [CVal (JInt 7001)]); ("complaint_type_name", [CVal (JStr "Housing")]);
             ("violation", [CVal (JStr "Peeling paint")]); ("open_date", [CDate 1699956000000]);
             ("violation_date", [CDate 1699956000000]); ("issued_to", [CVal (JStr "Owner")])].

(** What makes a page end the paging loop with an exception: reading it
    raises, or flattening one of its features does. *)
Definition page_raises (http : string -> response) (part : option string) (u : string)
    (e : exn) : Prop :=
  page_features (http u) = Raise e \/
  exists feats, page_features (http u) = Ok (Some feats) /\
                res_map (flatten_feature part) feats = Raise e.

(** ** The address lookup ([process_address] and [main] in [streamlit.py]) *)

(** [process_address(input_address, database_addresses)]: the reply of the
    address model, given as a function from the address and the database
    addresses to [json.loads(response.text)] ([None] when the text is not
    JSON, which the function turns into [None]). *)
Definition process_address (reply : string -> string -> option json)
    (input_address database_addresses : string) : json :=
  match reply input_address database_addresses with
  | Some data => data
  | None => JNull
  end.

(** The six [st.write] lines of one result column: [data[k]] for each key. *)
Definition shown_keys : list string :=
  ["cleaned_address"; "confidence"; "explanation"; "match"; "matched_database_address";
   "original_address"].

Definition show_result (data : json) : res (list json) :=
  if truthy data then res_map (getitem data) shown_keys else Ok [].

(** [data and data["matched_database_address"]], as an optional address. *)
Definition matched (data : json) : res (option json) :=
  if truthy data then
    a <- getitem data "matched_database_address" ;;
    Ok (if truthy a then Some a else None)
  else Ok None.

(** Python's [==] on decoded JSON values ([True == 1]; dicts compare by keys
    and values, a decoded dict having distinct keys). *)
Fixpoint py_eq (a b : json) : bool :=
  match a, b with
  | JNull, JNull => true
  | JBool x, JBool y => Bool.eqb x y
  | JBool x, JInt z => Z.eqb (if x then 1 else 0) z
  | JInt z, JBool x => Z.eqb z (if x then 1 else 0)
  | JInt x, JInt y => Z.eqb x y
  | JStr s, JStr t => String.eqb s t
  | JArr l, JArr m =>
      (fix go (l m : list json) : bool :=
         match l, m with
         | [], [] => true
         | x :: l', y :: m' => andb (py_eq x y) (go l' m')
         | _, _ => false
         end) l m
  | JObj kv, JObj kv' =>
      andb (Nat.eqb (List.length kv) (List.length kv'))
        ((fix go (kv : list (string * json)) : bool :=
            match kv with
            | [] => true
            | (k, v) :: r =>
                andb (match assoc k kv' with Some v' => py_eq v v' | None => false end) (go r)
            end) kv)
  | _, _ => false
  end.

(** [pd.concat(dfs, ignore_index=True)]: columns in order of first
    appearance, a frame lacking a column contributing [NaN]s. *)
Definition concat_columns (dfs : list frame) : list string :=
  fold_left (fun acc k => if existsb (String.eqb k) acc then acc else (acc ++ [k])%list)
    (flat_map (fun df => map fst (columns df)) dfs) [].

Definition frame_concat (dfs : list frame) : frame :=
  mkFrame (list_sum (map nrows dfs))
    (map (fun k => (k, flat_map (fun df => match column df k with
                                           | Some cells => cells
                                           | None => repeat CNaN (nrows df)
                                           end) dfs))
         (concat_columns dfs)).

(** [main()] from the entered address on.  [reply] is the address model,
    [read_violations a] the frame [pd.read_sql_query] returns for the query
    on [complaint_address = 'a'], and [generate_content] the summary model.
    Returns what is written under the results (nothing: [None]), or the
    exception that escapes; the addresses queried, in order; and the prompts
    sent to the summary model. *)
Definition main (reply : string -> string -> option json) (read_violations : json -> frame)
    (generate_content : string -> res string) (prop_add complaint_addresses : string)
    (input_address : string) : res (option string) * list json * list string :=
  if String.eqb input_address "" then (Ok None, [], []) else
  let data_prop := process_address reply input_address prop_add in
  let data_complaint := process_address reply input_address complaint_addresses in
  match (_ <- show_result data_prop ;; show_result data_complaint) with
  | Raise e => (Raise e, [], [])
  | Ok _ =>
      match matched data_prop with
      | Raise e => (Raise e, [], [])
      | Ok mp =>
          let matched_addresses := match mp with Some a => [a] | None => [] end in
          match matched data_complaint with
          | Raise e => (Raise e, matched_addresses, [])
          | Ok mc =>
              let matched_addresses :=
                match mc with
                | Some a => if existsb (py_eq a) matched_addresses then matched_addresses
                            else (matched_addresses ++ [a])%list
                | None => matched_addresses
                end in
              match matched_addresses with
              | [] => (Ok (Some "No matching addresses found to summarize violations."), [], [])
              | _ =>
                  let '(summary, prompts) :=
                    summarize_violations generate_content
                      (frame_concat (map read_violations matched_addresses)) in
                  (summary_text <- summary ;;
                   Ok (Some (if negb (String.eqb summary_text "") then summary_text
                             else "No summary was generated.")),
                   matched_addresses, prompts)
              end
          end
      end
  end.

(** A reply of the address model that found no match. *)
Definition no_match_reply (input_address database_addresses : string) : option json :=
  Some (JObj [("match", JBool false); ("original_address", JStr input_address);
              ("cleaned_address", JStr ""); ("matched_database_address", JStr "");
              ("confidence", JInt 0); ("explanation", JStr "No match")]).

(** A reply of the address model without its [confidence] key. *)
Definition partial_reply (input_address database_addresses : string) : option json :=
  Some (JObj [("match", JBool true); ("original_address", JStr input_address);
              ("cleaned_address", JStr "301 Oak St"); ("matched_database_address", JStr "301 OAK ST");
              ("explanation", JStr "Exact match")]).

(** ** Calendar checks

    Decidable checks used to prove the [isoformat]/[parse_iso] round trip:
    [year_ok] and [doy_ok] check the year and day-of-year steps of
    [civil_from_days] on one 400-year era, [pad_ok] checks that [take_digits]
    reads back what [pad] wrote, and [all_range] runs a check over a range. *)






(** ** Helper lemmas *)

Lemma truthy_str_some (f : string) : f <> "" -> truthy_str (Some f) = true.
Proof.
  intros H. unfold truthy_str. destruct (String.eqb_spec f ""); [contradiction | reflexivity].
Qed.

(** ** Claims *)

(** C2 (date half): the date-keyed incremental query starts at the watermark's
    own day and [BETWEEN] includes it, so rows already stored are fetched again
    and appended.  Three runs against an unchanged service, with no new data
    after the first, leave the single violation stored three times; the second
    and third runs request exactly the same URLs (the same watermark window). *)
Theorem date_incremental_reappends_watermark_rows :
  table_rows (r_db cv_run1) "code_violations"
    = Some [[SInt 7001; SText "2023-11-14 10:00:00"]] /\
  table_rows (r_db cv_run3) "code_violations"
    = Some [[SInt 7001; SText "2023-11-14 10:00:00"];
            [SInt 7001; SText "2023-11-14 10:00:00"];
            [SInt 7001; SText "2023-11-14 10:00:00"]] /\
  r_urls cv_run2 = r_urls cv_run3 /\
  map (fun u => url_param u "where") (r_urls cv_run3)
    = [Some "violation_date BETWEEN '2023-11-14' AND '2023-11-20'";
       Some "violation_date BETWEEN '2023-11-14' AND '2023-11-20'"] /\
  map fst (r_loads cv_run2) = [Append] /\ map fst (r_loads cv_run3) = [Append].
Proof. vm_compute. repeat split. Qed.

(** C4: for a table that does not exist, or exists with no rows, the date
    watermark is [None] and the id watermark is [0]; both functions are total
    (no exception reaches the caller). *)
Theorem watermark_absent_table (conn : db) (table_name field : string)
    (H : assoc table_name conn = None \/
         exists t, assoc table_name conn = Some t /\ trows t = []) :
  get_max_date_from_sqlite conn table_name field = None /\
  get_max_id_from_sqlite conn table_name field = SInt 0.
Proof.
  unfold get_max_date_from_sqlite, get_max_id_from_sqlite, sql_max.
  destruct H as [H | [t [H Hr]]]; rewrite H; [split; reflexivity |].
  rewrite Hr. simpl.
  destruct (assoc_ci field _); split; reflexivity.
Qed.

Lemma watermark_absent_table_witness :
  (assoc (A := table) "permits" [] = None /\
   get_max_date_from_sqlite [] "permits" "Issue_Date" = None /\
   get_max_id_from_sqlite [] "permits" "Issue_Date" = SInt 0) /\
  (assoc "t" [("t", mkTable ["ObjectId"] [])] = Some (mkTable ["ObjectId"] []) /\
   get_max_date_from_sqlite [("t", mkTable ["ObjectId"] [])] "t" "ObjectId" = None /\
   get_max_id_from_sqlite [("t", mkTable ["ObjectId"] [])] "t" "ObjectId" = SInt 0).
Proof.
  split.
  - split; [reflexivity |].
    apply (watermark_absent_table [] "permits" "Issue_Date"). left. reflexivity.
  - split; [reflexivity |].
    apply (watermark_absent_table [("t", mkTable ["ObjectId"] [])] "t" "ObjectId").
    right. exists (mkTable ["ObjectId"] []). split; reflexivity.
Defined.

(** C8, as the claim states it, fails: appending a frame with a column the
    table lacks makes [to_sql] raise, yet [load_dataframe_to_sqlite] returns
    normally. *)
Lemma loader_swallows_store_error :
  to_sql frame_b "t" Append db_a = Raise SqliteError /\
  fst (load_dataframe_to_sqlite frame_b "t" db_a Append) = Done tt.
Proof. vm_compute. split; reflexivity. Qed.

(** C8 (amended): the loader never propagates an error: every call returns
    normally ([None]); when [to_sql] succeeds, its database is the result. *)
Theorem loader_never_raises (df : frame) (table_name : string) (conn : db) (mode : if_exists) :
  fst (load_dataframe_to_sqlite df table_name conn mode) = Done tt /\
  match to_sql df table_name mode conn with
  | Ok conn' => snd (load_dataframe_to_sqlite df table_name conn mode) = conn'
  | Raise _ => True
  end.
Proof.
  unfold load_dataframe_to_sqlite.
  destruct (to_sql df table_name mode conn); split; reflexivity.
Qed.

(** C9: an empty violation frame is summarised as the fixed text, and no
    prompt is sent to the oracle, whatever the oracle is. *)
Theorem summarize_empty_no_oracle (generate_content : string -> res string) (df : frame)
    (H : nrows df = 0%nat) :
  summarize_violations generate_content df = (Ok "No violations to summarize.", []).
Proof.
  unfold summarize_violations, df_empty. rewrite H. reflexivity.
Qed.

Lemma summarize_empty_no_oracle_witness :
  nrows (mkFrame 0 [("violation_number", [])]) = 0%nat /\
  summarize_violations (fun _ => Raise RequestException) (mkFrame 0 [("violation_number", [])])
    = (Ok "No violations to summarize.", []).
Proof.
  split; [reflexivity |].
  apply summarize_empty_no_oracle. reflexivity.
Defined.

(** C10: a feature whose geometry has a one-element [coordinates] list makes
    [coordinates[1]] raise [IndexError]; [fetch_data] does not catch it, so it
    escapes instead of becoming the "no data" result. *)
Theorem index_error_escapes_fetch :
  exists fuel http base_url ps part_type pag cap table_name,
    fst (fetch_data fuel http base_url ps part_type pag cap table_name) = Exn IndexError /\
    caught IndexError = false.
Proof.
  exists 3%nat, one_coordinate_server, cv_base_url, cv_params, None, (Some true), None,
    "code_violations".
  vm_compute. split; reflexivity.
Qed.




(** C3: for an id-keyed dataset the orchestrator reads the id watermark
    (zero when there is none), queries [<id_field> > <watermark>], appends
    exactly when the fetch returns a non-empty table, and never replaces. *)
Theorem id_branch_fetch_and_load (fuel : nat) (http : string -> response) (key : string)
    (cfg : config) (conn : db) (now : Z) (f : string)
    (Hd : truthy_str (date_field cfg) = false)
    (Hf : id_field cfg = Some f) (Hne : f <> "") :
  id_branch_spec fuel http key cfg conn now f.
Proof.
  assert (Hr : fetch_and_load_data fuel http key cfg conn now = load_by_id fuel http key cfg conn f).
  { unfold fetch_and_load_data.
    destruct (date_field cfg) as [d |]; [rewrite Hd |]; rewrite Hf, (truthy_str_some f Hne);
      reflexivity. }
  unfold id_branch_spec. rewrite Hr. unfold load_by_id.
  split.
  { destruct (truthy_sql (get_max_id_from_sqlite conn key f)) eqn:Ht; [left; reflexivity |].
    right. unfold get_max_id_from_sqlite in *.
    destruct (sql_max conn key f) as [v |]; [| reflexivity].
    destruct (truthy_sql v) eqn:Hv; [rewrite Hv in Ht; discriminate | reflexivity]. }
  split.
  { unfold id_query_params. simpl.
    destruct (truthy_sql (get_max_id_from_sqlite conn key f)) eqn:Ht; [reflexivity |].
    unfold get_max_id_from_sqlite in *.
    destruct (sql_max conn key f) as [v |]; [| reflexivity].
    destruct (truthy_sql v) eqn:Hv; [rewrite Hv in Ht; discriminate | reflexivity]. }
  destruct (fetch_data _ _ _ _ _ _ _ _) as [o tr].
  destruct o as [[df |] | e |];
    try (split; [reflexivity | split; [intros m df' Hin; destruct Hin | split; reflexivity]]).
  destruct (df_empty df); simpl.
  - split; [reflexivity | split; [intros m df' Hin; destruct Hin | split; reflexivity]].
  - unfold load_step. destruct (load_dataframe_to_sqlite df key conn Append).
    split; [reflexivity |]. split.
    + intros m df' [Hin | []]. injection Hin; intros; subst; reflexivity.
    + split; reflexivity.
Qed.

Lemma id_branch_fetch_and_load_witness :
  truthy_str (date_field cityline_config) = false /\
  id_field cityline_config = Some "ObjectId" /\ "ObjectId" <> "" /\
  id_branch_spec 3 empty_server "cityline_requests" cityline_config [] now_ms "ObjectId".
Proof.
  split; [reflexivity |]. split; [reflexivity |]. split; [discriminate |].
  apply id_branch_fetch_and_load; [reflexivity | reflexivity | discriminate].
Defined.






Lemma res_map_ok_forall2 {A B} (f : A -> res B) (l : list A) (ys : list B) :
  res_map f l = Ok ys -> Forall2 (fun x y => f x = Ok y) l ys.
Proof.
  revert ys. induction l as [| x l IH]; intros ys; simpl.
  - intros H. injection H as <-. constructor.
  - destruct (f x) as [y |] eqn:Ef; simpl; [| discriminate].
    destruct (res_map f l) as [ys' |]; simpl; [| discriminate].
    intros H. injection H as <-. constructor; [exact Ef | apply IH; reflexivity].
Qed.

Lemma res_map_length {A B} (f : A -> res B) (l : list A) (ys : list B) :
  res_map f l = Ok ys -> List.length ys = List.length l.
Proof.
  intros H. apply res_map_ok_forall2 in H. induction H; simpl; congruence.
Qed.








(** *** Columns through the post-processing loops *)






Section FoldColumns.
Variable step : frame -> string -> frame.
Variable g : list cell -> list cell.
Hypothesis step_column : forall df field c,
  column (step df field) c
    = if String.eqb c field then option_map g (column df c) else column df c.
Hypothesis step_nrows : forall df field, nrows (step df field) = nrows df.


Lemma fold_nrows (fields : list string) (df : frame) :
  nrows (fold_left step fields df) = nrows df.
Proof.
  revert df. induction fields as [| f fs IH]; intros df; simpl; [reflexivity |].
  rewrite IH. apply step_nrows.
Qed.
End FoldColumns.

Lemma convert_ms_field_nrows (df : frame) (field : string) :
  nrows (convert_ms_field df field) = nrows df.
Proof.
  unfold convert_ms_field. destruct (column df field); [destruct (dtype_eqb _ _) |]; reflexivity.
Qed.

Lemma convert_cityline_field_nrows (df : frame) (field : string) :
  nrows (convert_cityline_field df field) = nrows df.
Proof.
  unfold convert_cityline_field. destruct (existsb _ _); reflexivity.
Qed.

Lemma postprocess_nrows (table_name : string) (df : frame) :
  nrows (postprocess table_name df) = nrows df.
Proof.
  unfold postprocess.
  destruct (String.eqb table_name "cityline_requests");
    rewrite ?(fold_nrows convert_cityline_field convert_cityline_field_nrows);
    apply (fold_nrows convert_ms_field convert_ms_field_nrows).
Qed.

Lemma frame_of_records_nrows (recs : list json) (df : frame) :
  frame_of_records recs = Ok df -> nrows df = List.length recs.
Proof.
  unfold frame_of_records.
  destruct (res_map _ recs); simpl; intros H; [injection H as <- | discriminate]. reflexivity.
Qed.





(** *** Paging parameters and the record cap *)

Lemma assoc_set_twice {A} (k : string) (v v' : A) (l : list (string * A)) :
  assoc_set k v (assoc_set k v' l) = assoc_set k v l.
Proof.
  induction l as [| [k' x] l IH]; simpl.
  - rewrite String.eqb_refl. reflexivity.
  - destruct (String.eqb_spec k k') as [<- | Hk]; simpl.
    + rewrite String.eqb_refl. reflexivity.
    + destruct (String.eqb_spec k k'); [contradiction |]. rewrite IH. reflexivity.
Qed.

Lemma assoc_set_in {A} (k : string) (v : A) (l : list (string * A)) :
  In k (map fst (assoc_set k v l)).
Proof.
  induction l as [| [k' x] l IH]; simpl; [left; reflexivity |].
  destruct (String.eqb_spec k k'); simpl; [left; reflexivity | right; exact IH].
Qed.

Lemma assoc_set_comm {A} (k1 k2 : string) (v1 v2 : A) (l : list (string * A)) :
  k1 <> k2 -> In k1 (map fst l) ->
  assoc_set k1 v1 (assoc_set k2 v2 l) = assoc_set k2 v2 (assoc_set k1 v1 l).
Proof.
  intros Hne. induction l as [| [k x] l IH]; simpl; [intros [] |].
  intros Hin.
  destruct (String.eqb_spec k2 k) as [-> | H2]; destruct (String.eqb_spec k1 k) as [-> | H1];
    simpl; try contradiction.
  - destruct (String.eqb_spec k1 k); [contradiction |].
    rewrite String.eqb_refl. reflexivity.
  - rewrite String.eqb_refl.
    destruct (String.eqb_spec k2 k) as [-> |]; [contradiction | reflexivity].
  - destruct (String.eqb_spec k1 k); [contradiction |].
    destruct (String.eqb_spec k2 k); [contradiction |].
    destruct Hin as [-> | Hin]; [contradiction |].
    rewrite (IH Hin). reflexivity.
Qed.

Lemma page_params_twice (ps : params) (o1 o2 : Z) :
  page_params (page_params ps o1) o2 = page_params ps o2.
Proof.
  unfold page_params.
  rewrite (assoc_set_comm "resultOffset" "resultRecordCount");
    [| discriminate | apply assoc_set_in].
  rewrite !assoc_set_twice. reflexivity.
Qed.

Lemma fetch_loop_cap (fuel : nat) (http : string -> response) (base : string) (ps : params)
    (part : option string) (pag : bool) (c : Z) (all_records : list json) (offset : Z)
    (tr : list string) :
  0 < c -> Z.of_nat (List.length all_records) < c ->
  match fst (fetch_loop fuel http base ps part pag (Some c) all_records offset tr) with
  | Done recs => Z.of_nat (List.length recs) <= c
  | _ => True
  end.
Proof.
  intros Hc. revert ps all_records offset tr.
  induction fuel as [| fuel IH]; intros ps all_records offset tr Hall; [exact I |].
  cbn [fetch_loop].
  destruct (page_features _) as [[feats |] | e]; simpl; [| lia | exact I].
  destruct (res_map _ feats) as [records | e]; simpl; [| exact I].
  assert (Ht : Z.eqb c 0 = false) by (apply Z.eqb_neq; lia).
  rewrite Ht. simpl andb.
  destruct (Z.leb_spec c (Z.of_nat (List.length (all_records ++ records)))) as [Hle | Hlt].
  - simpl. unfold py_slice_to. destruct (Z.ltb_spec c 0); [lia |].
    rewrite length_firstn. lia.
  - destruct (negb pag); simpl; [lia | apply IH; lia].
Qed.

Lemma fetch_loop_pages (fuel : nat) (http : string -> response) (base : string) (ps : params)
    (part : option string) (cap : option Z) (all_records : list json) (offset : Z)
    (tr : list string) :
  exists n, snd (fetch_loop fuel http base ps part true cap all_records offset tr)
    = (tr ++ map (fun k => full_url base (page_params ps (offset + Z.of_nat k * record_limit)))
                 (seq 0 n))%list.
Proof.
  revert ps all_records offset tr.
  induction fuel as [| fuel IH]; intros ps all_records offset tr.
  - exists 0%nat. simpl. symmetry. apply app_nil_r.
  - cbn [fetch_loop negb].
    assert (Hone : (tr ++ [full_url base (page_params ps offset)])%list
      = (tr ++ map (fun k => full_url base (page_params ps (offset + Z.of_nat k * record_limit)))
                   (seq 0 1))%list).
    { simpl. rewrite Z.add_0_r. reflexivity. }
    assert (Hrec : forall all',
      exists n, snd (fetch_loop fuel http base (page_params ps offset) part true cap all'
                       (offset + record_limit) (tr ++ [full_url base (page_params ps offset)]))
        = (tr ++ map (fun k => full_url base (page_params ps (offset + Z.of_nat k * record_limit)))
                     (seq 0 n))%list).
    { intros all'.
      destruct (IH (page_params ps offset) all' (offset + record_limit)
                   (tr ++ [full_url base (page_params ps offset)])%list) as [n E].
      exists (S n). rewrite E, <- app_assoc. f_equal. simpl. f_equal.
      - rewrite Z.add_0_r. reflexivity.
      - rewrite <- seq_shift, map_map. apply map_ext. intros k.
        rewrite page_params_twice. f_equal. f_equal. unfold record_limit. lia. }
    destruct (page_features _) as [[feats |] | e]; [| exists 1%nat; exact Hone
                                                    | exists 1%nat; exact Hone].
    destruct (res_map _ _) as [records | e]; [| exists 1%nat; exact Hone].
    destruct cap as [c |]; [destruct (andb _ _); [exists 1%nat; exact Hone |] |]; apply Hrec.
Qed.

(** C6, as the claim states it, fails for a configured cap of [0]: the guard
    [if max_records and ...] treats it as no cap, and the fetch returns a
    one-row table. *)
Lemma record_cap_zero_not_applied :
  match fst (fetch_data 5 cv_server cv_base_url cv_params None (Some true) (Some 0)
               "code_violations") with
  | Done (Some df) => nrows df = 1%nat
  | _ => False
  end.
Proof. vm_compute. reflexivity. Qed.

Lemma fetch_loop_cap_zero (fuel : nat) (http : string -> response) (base : string)
    (ps : params) (part : option string) (pag : bool) (all_records : list json) (offset : Z)
    (tr : list string) :
  fetch_loop fuel http base ps part pag (Some 0) all_records offset tr
    = fetch_loop fuel http base ps part pag None all_records offset tr.
Proof.
  revert ps all_records offset tr.
  induction fuel as [| fuel IH]; intros ps all_records offset tr; [reflexivity |].
  cbn [fetch_loop].
  destruct (page_features _) as [[feats |] | e]; [| reflexivity | reflexivity].
  destruct (res_map _ feats) as [records | e]; [| reflexivity].
  cbn [truthy_int negb Z.eqb andb]. rewrite IH. reflexivity.
Qed.

(** C6 (amended): for a positive cap [c], the returned table holds at most [c]
    rows; the page on which the accumulated count reaches [c] ends the paging,
    with the records truncated to exactly [c]; and, when paginating, every
    request asks for a full page of [record_limit] rows at offsets 0, 1000, ...
    A cap of 0 is falsy in the guard: a fetch with cap 0 requests the same
    URLs and returns the same result as a fetch with no cap. *)
Theorem record_cap_truncates :
  (forall c, 0 < c -> cap_spec c) /\
  (forall fuel http base ps part pag table_name,
     fetch_data fuel http base ps part pag (Some 0) table_name
       = fetch_data fuel http base ps part pag None table_name).
Proof.
  split.
  2: { intros fuel http base ps part pag table_name. unfold fetch_data.
       rewrite fetch_loop_cap_zero. reflexivity. }
  intros c Hc.
  assert (Ht : truthy_int (Some c) = true)
    by (simpl; destruct (Z.eqb_spec c 0); [lia | reflexivity]).
  split; [| split].
  - intros fuel http base ps part pag table_name. unfold fetch_data.
    pose proof (fetch_loop_cap fuel http base ps part (truthy_bool pag) c [] 0 [] Hc
                  ltac:(simpl; lia)) as H.
    destruct (fetch_loop fuel http base ps part (truthy_bool pag) (Some c) [] 0 []) as [o tr].
    simpl in H |- *.
    destruct o as [recs | e |]; [| destruct (caught e); exact I | exact I].
    destruct recs as [| r rs]; [exact I |].
    destruct (frame_of_records (r :: rs)) as [df | e] eqn:F; [| exact I].
    rewrite postprocess_nrows, (frame_of_records_nrows _ _ F). exact H.
  - intros fuel http base ps part pag all_records offset tr feats records Hp Hr Hle.
    cbn [fetch_loop]. rewrite Hp, Hr, Ht. simpl andb.
    destruct (Z.leb_spec c (Z.of_nat (List.length (all_records ++ records)))); [| lia].
    unfold py_slice_to. destruct (Z.ltb_spec c 0); [lia |].
    split; [reflexivity |]. rewrite length_firstn. lia.
  - intros fuel http base ps part pag table_name.
    destruct (truthy_bool pag) eqn:P; [| exact I].
    unfold fetch_data. rewrite P.
    destruct (fetch_loop_pages fuel http base ps part (Some c) [] 0 []) as [n E].
    exists n.
    destruct (fetch_loop fuel http base ps part true (Some c) [] 0 []) as [o tr].
    simpl in E |- *. exact E.
Qed.

Lemma record_cap_truncates_witness : 0 < 1 /\ cap_spec 1.
Proof.
  split; [lia |]. apply (proj1 record_cap_truncates 1). lia.
Defined.

(** ** Further properties of the code *)

(** *** Dict updates *)

Lemma assoc_assoc_set_eq {A} (k : string) (v : A) (l : list (string * A)) :
  assoc k (assoc_set k v l) = Some v.
Proof.
  induction l as [| [k' x] l IH]; simpl; [rewrite String.eqb_refl; reflexivity |].
  destruct (String.eqb_spec k k') as [-> | Hk]; simpl.
  - rewrite String.eqb_refl. reflexivity.
  - destruct (String.eqb_spec k k'); [contradiction | exact IH].
Qed.

Lemma assoc_assoc_set_neq {A} (k k' : string) (v : A) (l : list (string * A)) :
  k <> k' -> assoc k (assoc_set k' v l) = assoc k l.
Proof.
  intros Hne. induction l as [| [k'' x] l IH]; simpl.
  - destruct (String.eqb_spec k k'); [contradiction | reflexivity].
  - destruct (String.eqb_spec k' k'') as [-> | Hk]; simpl.
    + destruct (String.eqb_spec k k''); [contradiction | reflexivity].
    + destruct (String.eqb k k''); [reflexivity | exact IH].
Qed.

Lemma assoc_assoc_del_eq {A} (k : string) (l : list (string * A)) :
  assoc k (assoc_del k l) = None.
Proof.
  induction l as [| [k' x] l IH]; simpl; [reflexivity |].
  destruct (String.eqb_spec k k') as [-> | Hk]; [exact IH |]. simpl.
  destruct (String.eqb_spec k k'); [contradiction | exact IH].
Qed.

Lemma assoc_assoc_del_neq {A} (k k' : string) (l : list (string * A)) :
  k <> k' -> assoc k (assoc_del k' l) = assoc k l.
Proof.
  intros Hne. induction l as [| [k'' x] l IH]; simpl; [reflexivity |].
  destruct (String.eqb_spec k' k'') as [-> | Hk]; simpl.
  - destruct (String.eqb_spec k k''); [contradiction | exact IH].
  - destruct (String.eqb k k''); [reflexivity | exact IH].
Qed.

Lemma map_fst_assoc_set {A} (k : string) (v : A) (l : list (string * A)) :
  In k (map fst l) -> map fst (assoc_set k v l) = map fst l.
Proof.
  induction l as [| [k' x] l IH]; simpl; [intros [] |].
  intros Hin. destruct (String.eqb_spec k k') as [-> | Hk]; simpl; [reflexivity |].
  destruct Hin as [-> | Hin]; [contradiction |]. rewrite (IH Hin). reflexivity.
Qed.

Lemma in_map_fst_assoc_set {A} (k k' : string) (v : A) (l : list (string * A)) :
  In k (map fst l) -> In k (map fst (assoc_set k' v l)).
Proof.
  induction l as [| [k'' x] l IH]; simpl; [intros [] |].
  intros Hin. destruct (String.eqb_spec k' k'') as [-> | Hk]; simpl; [exact Hin |].
  destruct Hin as [-> | Hin]; [left; reflexivity | right; exact (IH Hin)].
Qed.

(** *** The store, the loader and the orchestrator touch one table *)

Lemma to_sql_other (df : frame) (name : string) (mode : if_exists) (d d' : db) (n : string) :
  to_sql df name mode d = Ok d' -> n <> name -> assoc n d' = assoc n d.
Proof.
  unfold to_sql. destruct (res_map _ (columns df)) as [cols | e]; simpl; [| discriminate].
  intros H Hn.
  destruct mode, (assoc name d) as [t |];
    repeat match goal with
           | H : context [if ?b then _ else _] |- _ => destruct b
           end;
    try discriminate; injection H as <-; apply assoc_assoc_set_neq; exact Hn.
Qed.

(** What [to_sql] leaves in the target table depends on that table only. *)
Lemma to_sql_local (df : frame) (name : string) (mode : if_exists) (d1 d2 : db) :
  assoc name d1 = assoc name d2 ->
  match to_sql df name mode d1, to_sql df name mode d2 with
  | Ok a, Ok b => assoc name a = assoc name b
  | Raise _, Raise _ => True
  | _, _ => False
  end.
Proof.
  intros H. unfold to_sql. destruct (res_map _ (columns df)) as [cols | e]; simpl; [| exact I].
  rewrite H.
  destruct mode, (assoc name d2) as [t |];
    repeat match goal with
           | |- context [if ?b then _ else _] => destruct b
           end;
    try exact I; rewrite !assoc_assoc_set_eq; reflexivity.
Qed.

Lemma load_done (df : frame) (name : string) (conn : db) (mode : if_exists) :
  fst (load_dataframe_to_sqlite df name conn mode) = Done tt.
Proof. unfold load_dataframe_to_sqlite. destruct (to_sql df name mode conn); reflexivity. Qed.

Lemma load_other (df : frame) (name : string) (conn : db) (mode : if_exists) (n : string) :
  n <> name -> assoc n (snd (load_dataframe_to_sqlite df name conn mode)) = assoc n conn.
Proof.
  intros Hn. unfold load_dataframe_to_sqlite.
  destruct (to_sql df name mode conn) as [d' |] eqn:E.
  - exact (to_sql_other df name mode conn d' n E Hn).
  - simpl. unfold to_sql_failed.
    destruct mode, (assoc name conn); try reflexivity;
      destruct (create_ok _);
      first [apply assoc_assoc_set_neq; exact Hn | apply assoc_assoc_del_neq; exact Hn].
Qed.

Lemma load_local (df : frame) (name : string) (c1 c2 : db) (mode : if_exists) :
  assoc name c1 = assoc name c2 ->
  assoc name (snd (load_dataframe_to_sqlite df name c1 mode))
    = assoc name (snd (load_dataframe_to_sqlite df name c2 mode)).
Proof.
  intros H. pose proof (to_sql_local df name mode c1 c2 H) as L.
  unfold load_dataframe_to_sqlite.
  destruct (to_sql df name mode c1), (to_sql df name mode c2); simpl; try tauto.
  unfold to_sql_failed. rewrite <- H.
  destruct mode, (assoc name c1) eqn:E; try congruence;
    destruct (create_ok (map fst (columns df)));
    rewrite ?assoc_assoc_set_eq, ?assoc_assoc_del_eq; reflexivity.
Qed.

Lemma rows_of_length (n : nat) (cols : list (string * list sqlval)) :
  List.length (rows_of n cols) = n.
Proof. unfold rows_of. rewrite length_map, length_seq. reflexivity. Qed.

Lemma to_sql_append_existing (df : frame) (name : string) (d d' : db) (t : table) :
  assoc name d = Some t -> to_sql df name Append d = Ok d' ->
  exists new, assoc name d' = Some (mkTable (tcols t) (trows t ++ new)%list) /\
              List.length new = nrows df.
Proof.
  intros Ht. unfold to_sql. destruct (res_map _ (columns df)) as [cols | e]; simpl; [| discriminate].
  rewrite Ht. destruct (forallb _ _); [| discriminate].
  intros H. injection H as <-. eexists. split; [apply assoc_assoc_set_eq |].
  rewrite length_map. apply rows_of_length.
Qed.

Lemma sql_max_local (c1 c2 : db) (name field : string) :
  assoc name c1 = assoc name c2 -> sql_max c1 name field = sql_max c2 name field.
Proof. intros H. unfold sql_max. rewrite H. reflexivity. Qed.

Lemma load_step_run (df : frame) (name : string) (conn : db) (mode : if_exists) (tr : list string) :
  load_step df name conn mode tr
    = mkRun (Done tt) (snd (load_dataframe_to_sqlite df name conn mode)) tr [(mode, df)].
Proof.
  unfold load_step. pose proof (load_done df name conn mode) as H.
  destruct (load_dataframe_to_sqlite df name conn mode) as [o c']. simpl in H |- *. subst. reflexivity.
Qed.

Ltac split_fetch :=
  repeat match goal with
         | |- context [let '(_, _) := ?p in _] => destruct p as [?o ?tr]
         | |- context [match ?o with Done _ => _ | Exn _ => _ | OutOfFuel => _ end] =>
             destruct o as [[?df |] | ?e |]
         | |- context [if ?b then _ else _] => destruct b
         end.

Lemma fetch_and_load_other (fuel : nat) (http : string -> response) (key : string) (cfg : config)
    (conn : db) (now : Z) (n : string) :
  n <> key -> assoc n (r_db (fetch_and_load_data fuel http key cfg conn now)) = assoc n conn.
Proof.
  intros Hn. unfold fetch_and_load_data, load_by_date, load_by_id.
  destruct (date_field cfg) as [f |]; [destruct (truthy_str (Some f)) |];
    try destruct (get_max_date_from_sqlite conn key f); try destruct (days_ago cfg);
    try destruct (id_field cfg) as [g |]; try destruct (truthy_str (Some g));
    split_fetch; rewrite ?load_step_run; simpl; try reflexivity; apply load_other; exact Hn.
Qed.

Lemma fetch_and_load_local (fuel : nat) (http : string -> response) (key : string) (cfg : config)
    (c1 c2 : db) (now : Z) :
  assoc key c1 = assoc key c2 ->
  r_out (fetch_and_load_data fuel http key cfg c1 now)
    = r_out (fetch_and_load_data fuel http key cfg c2 now) /\
  r_urls (fetch_and_load_data fuel http key cfg c1 now)
    = r_urls (fetch_and_load_data fuel http key cfg c2 now) /\
  assoc key (r_db (fetch_and_load_data fuel http key cfg c1 now))
    = assoc key (r_db (fetch_and_load_data fuel http key cfg c2 now)).
Proof.
  intros H.
  assert (Hd : forall f, get_max_date_from_sqlite c1 key f = get_max_date_from_sqlite c2 key f)
    by (intros f; unfold get_max_date_from_sqlite; rewrite (sql_max_local c1 c2 key f H); reflexivity).
  assert (Hi : forall f, get_max_id_from_sqlite c1 key f = get_max_id_from_sqlite c2 key f)
    by (intros f; unfold get_max_id_from_sqlite; rewrite (sql_max_local c1 c2 key f H); reflexivity).
  unfold fetch_and_load_data, load_by_date, load_by_id.
  destruct (date_field cfg) as [f |]; [destruct (truthy_str (Some f)) |];
    try (rewrite (Hd f); destruct (get_max_date_from_sqlite c2 key f); try destruct (days_ago cfg));
    try (destruct (id_field cfg) as [g |]; try (destruct (truthy_str (Some g)); try rewrite (Hi g)));
    split_fetch; rewrite ?load_step_run; simpl; repeat split; try assumption;
    apply load_local; exact H.
Qed.

Lemma load_append_existing (df : frame) (name : string) (conn : db) (t : table) :
  assoc name conn = Some t ->
  exists new, assoc name (snd (load_dataframe_to_sqlite df name conn Append))
                = Some (mkTable (tcols t) (trows t ++ new)%list) /\
              (new = [] \/ List.length new = nrows df).
Proof.
  intros Ht. unfold load_dataframe_to_sqlite.
  destruct (to_sql df name Append conn) as [d' | e] eqn:E; simpl.
  - destruct (to_sql_append_existing df name conn d' t Ht E) as [new [H1 H2]].
    exists new. split; [exact H1 | right; exact H2].
  - exists []. unfold to_sql_failed. rewrite Ht, app_nil_r, Ht. destruct t.
    split; [reflexivity | left; reflexivity].
Qed.

(** X1: a run of [fetch_and_load_data] for dataset [key] changes no other
    table; and an existing table of the dataset keeps all its rows, in order,
    with new rows only added after them, unless the run is a date-keyed run
    that found no watermark, which reloads it in replace mode. *)
Theorem run_keeps_rows_unless_replaced (fuel : nat) (http : string -> response) (key : string)
    (cfg : config) (conn : db) (now : Z) (t : table)
    (Ht : assoc key conn = Some t) :
  (forall n, n <> key ->
     assoc n (r_db (fetch_and_load_data fuel http key cfg conn now)) = assoc n conn) /\
  ((exists new, assoc key (r_db (fetch_and_load_data fuel http key cfg conn now))
                  = Some (mkTable (tcols t) (trows t ++ new)%list)) \/
   (exists f df, date_field cfg = Some f /\ get_max_date_from_sqlite conn key f = None /\
                 r_loads (fetch_and_load_data fuel http key cfg conn now) = [(Replace, df)])).
Proof.
  split; [intros n; apply fetch_and_load_other |].
  assert (Hkeep : exists new, assoc key conn = Some (mkTable (tcols t) (trows t ++ new)%list))
    by (exists []; rewrite app_nil_r, Ht; destruct t; reflexivity).
  unfold fetch_and_load_data.
  destruct (date_field cfg) as [f |] eqn:Hf; [destruct (truthy_str (Some f)) |].
  - unfold load_by_date.
    destruct (get_max_date_from_sqlite conn key f) eqn:Hw.
    + split_fetch; rewrite ?load_step_run; simpl; left; try exact Hkeep.
      destruct (load_append_existing df key conn t Ht) as [new [H _]]. exists new. exact H.
    + destruct (days_ago cfg); [| left; exact Hkeep].
      split_fetch; rewrite ?load_step_run; simpl; try (left; exact Hkeep).
      right. exists f, df. split; [reflexivity | split; [exact Hw | reflexivity]].
  - destruct (id_field cfg) as [g |]; [destruct (truthy_str (Some g)) |]; simpl;
      try (left; exact Hkeep).
    unfold load_by_id. split_fetch; rewrite ?load_step_run; simpl; left; try exact Hkeep.
    destruct (load_append_existing df key conn t Ht) as [new [H _]]. exists new. exact H.
  - destruct (id_field cfg) as [g |]; [destruct (truthy_str (Some g)) |]; simpl;
      try (left; exact Hkeep).
    unfold load_by_id. split_fetch; rewrite ?load_step_run; simpl; left; try exact Hkeep.
    destruct (load_append_existing df key conn t Ht) as [new [H _]]. exists new. exact H.
Qed.

Lemma run_keeps_rows_unless_replaced_witness :
  assoc "t" db_a = Some (mkTable ["a"] [[SInt 1]]) /\
  (forall n, n <> "t" ->
     assoc n (r_db (fetch_and_load_data 3 empty_server "t" cityline_config db_a now_ms))
       = assoc n db_a) /\
  ((exists new, assoc "t" (r_db (fetch_and_load_data 3 empty_server "t" cityline_config db_a now_ms))
                  = Some (mkTable (tcols (mkTable ["a"] [[SInt 1]]))
                                  (trows (mkTable ["a"] [[SInt 1]]) ++ new)%list)) \/
   (exists f df, date_field cityline_config = Some f /\
                 get_max_date_from_sqlite db_a "t" f = None /\
                 r_loads (fetch_and_load_data 3 empty_server "t" cityline_config db_a now_ms)
                   = [(Replace, df)])).
Proof.
  split; [reflexivity |].
  apply run_keeps_rows_unless_replaced. reflexivity.
Defined.

(** X2: a date-keyed dataset with no watermark and no ["days_ago"] entry in
    its config makes [fetch_and_load_data] raise [KeyError] before any request,
    leaving the database as it was. *)
Theorem date_without_watermark_needs_days_ago (fuel : nat) (http : string -> response)
    (key : string) (cfg : config) (conn : db) (now : Z) (f : string)
    (Hf : date_field cfg = Some f) (Hne : f <> "")
    (Hw : get_max_date_from_sqlite conn key f = None) (Hd : days_ago cfg = None) :
  fetch_and_load_data fuel http key cfg conn now = mkRun (Exn KeyError) conn [] [].
Proof.
  unfold fetch_and_load_data. rewrite Hf, (truthy_str_some f Hne).
  unfold load_by_date. rewrite Hw, Hd. reflexivity.
Qed.

Lemma date_without_watermark_needs_days_ago_witness :
  date_field (mkConfig cv_base_url (Some "violation_date") None None (Some true) None None)
    = Some "violation_date" /\
  "violation_date" <> "" /\
  get_max_date_from_sqlite [] "code_violations" "violation_date" = None /\
  days_ago (mkConfig cv_base_url (Some "violation_date") None None (Some true) None None) = None /\
  fetch_and_load_data 3 cv_server "code_violations"
    (mkConfig cv_base_url (Some "violation_date") None None (Some true) None None) [] now_ms
    = mkRun (Exn KeyError) [] [] [].
Proof.
  split; [reflexivity |]. split; [discriminate |]. split; [reflexivity |]. split; [reflexivity |].
  apply (date_without_watermark_needs_days_ago _ _ _ _ _ _ "violation_date");
    [reflexivity | discriminate | reflexivity | reflexivity].
Defined.

(** *** The [__main__] loop *)

Lemma run_endpoints_independent_aux (fuel : nat) (http : string -> response) (now : string -> Z)
    (eps : list (string * config)) :
  forall conn, NoDup (map fst eps) ->
  match run_endpoints fuel http eps conn now with
  | (Done _, d, urls) =>
      (forall k cfg, In (k, cfg) eps ->
         assoc k d = assoc k (r_db (fetch_and_load_data fuel http k cfg conn (now k)))) /\
      (forall n, ~ In n (map fst eps) -> assoc n d = assoc n conn) /\
      urls = concat (map (fun kc => r_urls (fetch_and_load_data fuel http (fst kc) (snd kc) conn
                                              (now (fst kc)))) eps)
  | _ => True
  end.
Proof.
  induction eps as [| [k cfg] rest IH]; intros conn Hnd; cbn [run_endpoints map fst snd concat] in *.
  - split; [intros k cfg [] | split; [intros; reflexivity | reflexivity]].
  - apply NoDup_cons_iff in Hnd as [Hk Hnd'].
    destruct (r_out (fetch_and_load_data fuel http k cfg conn (now k))) eqn:Ho;
      [| exact I | exact I].
    specialize (IH (r_db (fetch_and_load_data fuel http k cfg conn (now k))) Hnd').
    destruct (run_endpoints fuel http rest _ now) as [[o d] urls].
    destruct o; try exact I.
    destruct IH as [Hin [Hout Hurls]].
    assert (Hsame : forall k', k' <> k ->
      assoc k' (r_db (fetch_and_load_data fuel http k cfg conn (now k))) = assoc k' conn)
      by (intros k' H; apply fetch_and_load_other; exact H).
    split; [| split].
    + intros k' cfg' [E | Hin'].
      * injection E as <- <-. apply Hout. exact Hk.
      * assert (Hk' : k' <> k).
        { intros ->. apply Hk. apply (in_map fst) in Hin'. exact Hin'. }
        rewrite (Hin k' cfg' Hin').
        destruct (fetch_and_load_local fuel http k' cfg' _ conn (now k') (Hsame k' Hk'))
          as [_ [_ Ha]]. exact Ha.
    + intros n Hn. rewrite Hout by (intros H; apply Hn; right; exact H).
      apply fetch_and_load_other. intros ->. apply Hn. left. reflexivity.
    + rewrite Hurls. f_equal. f_equal. apply map_ext_in. intros [k' cfg'] Hin'. simpl.
      assert (Hk' : k' <> k).
      { intros ->. apply Hk. apply (in_map fst) in Hin'. exact Hin'. }
      destruct (fetch_and_load_local fuel http k' cfg' _ conn (now k') (Hsame k' Hk'))
        as [_ [Hu _]]. exact Hu.
Qed.

(** X3: in the [__main__] loop the datasets do not interfere: when the loop
    completes, every dataset's table is what that dataset's own
    [fetch_and_load_data] call makes of the initial database, every other
    table is unchanged, and the URLs requested are those of the datasets run
    one by one on the initial database, in the order of [endpoints]. *)
Theorem endpoints_do_not_interfere (fuel : nat) (http : string -> response) (now : string -> Z)
    (eps : list (string * config)) (conn : db) (Hnd : NoDup (map fst eps)) :
  match run_endpoints fuel http eps conn now with
  | (Done _, d, urls) =>
      (forall k cfg, In (k, cfg) eps ->
         assoc k d = assoc k (r_db (fetch_and_load_data fuel http k cfg conn (now k)))) /\
      (forall n, ~ In n (map fst eps) -> assoc n d = assoc n conn) /\
      urls = concat (map (fun kc => r_urls (fetch_and_load_data fuel http (fst kc) (snd kc) conn
                                              (now (fst kc)))) eps)
  | _ => True
  end.
Proof. apply run_endpoints_independent_aux. exact Hnd. Qed.

Lemma endpoints_do_not_interfere_witness :
  NoDup (map fst endpoints) /\
  match run_endpoints 3 empty_server endpoints [] (fun _ => now_ms) with
  | (Done _, d, urls) =>
      (forall k cfg, In (k, cfg) endpoints ->
         assoc k d = assoc k (r_db (fetch_and_load_data 3 empty_server k cfg [] now_ms))) /\
      (forall n, ~ In n (map fst endpoints) -> assoc n d = assoc n []) /\
      urls = concat (map (fun kc => r_urls (fetch_and_load_data 3 empty_server (fst kc) (snd kc) []
                                              now_ms)) endpoints)
  | _ => True
  end.
Proof.
  assert (H : NoDup (map fst endpoints)).
  { simpl. repeat constructor; simpl; intuition discriminate. }
  split; [exact H |].
  exact (endpoints_do_not_interfere 3 empty_server (fun _ => now_ms) endpoints [] H).
Defined.

(** X4: an exception escaping one dataset's [fetch_and_load_data] ends the
    [__main__] loop: the datasets after it in [endpoints] issue no request and
    the loop's result is that exception. *)
Theorem endpoint_exception_stops_loop (fuel : nat) (http : string -> response) (now : string -> Z)
    (pre post : list (string * config)) (k : string) (cfg : config) (conn d : db)
    (u : list string) (e : exn)
    (Hpre : run_endpoints fuel http pre conn now = (Done tt, d, u))
    (He : r_out (fetch_and_load_data fuel http k cfg d (now k)) = Exn e) :
  run_endpoints fuel http (pre ++ (k, cfg) :: post) conn now
    = (Exn e, r_db (fetch_and_load_data fuel http k cfg d (now k)),
       (u ++ r_urls (fetch_and_load_data fuel http k cfg d (now k)))%list).
Proof.
  revert conn u Hpre. induction pre as [| [k0 c0] pre IH]; intros conn u Hpre; simpl in Hpre |- *.
  - injection Hpre as <- <-. rewrite He. reflexivity.
  - destruct (r_out (fetch_and_load_data fuel http k0 c0 conn (now k0))); try discriminate.
    destruct (run_endpoints fuel http pre _ now) as [[o d'] u'] eqn:E.
    injection Hpre as Ho Hd Hu. subst o d' u.
    rewrite (IH _ _ E). rewrite app_assoc. reflexivity.
Qed.

Lemma endpoint_exception_stops_loop_witness :
  run_endpoints 3 one_coordinate_server [] [] (fun _ => now_ms) = (Done tt, [], []) /\
  r_out (fetch_and_load_data 3 one_coordinate_server "permits" (snd (hd ("", cv_config) endpoints))
           [] now_ms) = Exn IndexError /\
  run_endpoints 3 one_coordinate_server ([] ++ ("permits", snd (hd ("", cv_config) endpoints))
                                            :: tl endpoints) [] (fun _ => now_ms)
    = (Exn IndexError,
       r_db (fetch_and_load_data 3 one_coordinate_server "permits"
               (snd (hd ("", cv_config) endpoints)) [] now_ms),
       ([] ++ r_urls (fetch_and_load_data 3 one_coordinate_server "permits"
                        (snd (hd ("", cv_config) endpoints)) [] now_ms))%list).
Proof.
  assert (H1 : run_endpoints 3 one_coordinate_server [] [] (fun _ => now_ms) = (Done tt, [], []))
    by reflexivity.
  assert (H2 : r_out (fetch_and_load_data 3 one_coordinate_server "permits"
                        (snd (hd ("", cv_config) endpoints)) [] now_ms) = Exn IndexError)
    by (vm_compute; reflexivity).
  split; [exact H1 | split; [exact H2 |]].
  exact (endpoint_exception_stops_loop 3 one_coordinate_server (fun _ => now_ms) [] (tl endpoints)
           "permits" (snd (hd ("", cv_config) endpoints)) [] [] [] IndexError H1 H2).
Defined.

(** *** Watermark: the largest stored id *)





(** X6: the loader in append mode on an existing table keeps the table's
    columns and all its rows in order, adding either the frame's rows after
    them or nothing (when the write fails); no other table changes. *)
Theorem loader_append_keeps_existing_rows (df : frame) (name : string) (conn : db) (t : table)
    (Ht : assoc name conn = Some t) :
  (exists new, assoc name (snd (load_dataframe_to_sqlite df name conn Append))
                 = Some (mkTable (tcols t) (trows t ++ new)%list) /\
               (new = [] \/ List.length new = nrows df)) /\
  (forall n, n <> name -> assoc n (snd (load_dataframe_to_sqlite df name conn Append)) = assoc n conn).
Proof.
  split; [apply load_append_existing; exact Ht |].
  intros n Hn. apply load_other. exact Hn.
Qed.

Lemma loader_append_keeps_existing_rows_witness :
  assoc "t" db_a = Some (mkTable ["a"] [[SInt 1]]) /\
  (exists new, assoc "t" (snd (load_dataframe_to_sqlite (mkFrame 1 [("a", [CVal (JInt 2)])]) "t" db_a Append))
                 = Some (mkTable (tcols (mkTable ["a"] [[SInt 1]]))
                                 (trows (mkTable ["a"] [[SInt 1]]) ++ new)%list) /\
               (new = [] \/ List.length new = nrows (mkFrame 1 [("a", [CVal (JInt 2)])]))) /\
  (forall n, n <> "t" ->
     assoc n (snd (load_dataframe_to_sqlite (mkFrame 1 [("a", [CVal (JInt 2)])]) "t" db_a Append))
       = assoc n db_a).
Proof.
  split; [reflexivity |]. apply loader_append_keeps_existing_rows. reflexivity.
Defined.

(** *** Paging parameters *)

(** X7: paging sets ["resultOffset"] to the offset and ["resultRecordCount"]
    to [record_limit] in place: when both keys are already in the dict (as in
    both query dicts of the code), the parameter names and their order in the
    URL are unchanged and every other parameter keeps its value. *)
Theorem paging_sets_params_in_place (ps : params) (o : Z)
    (Ho : In "resultOffset" (map fst ps)) (Hc : In "resultRecordCount" (map fst ps)) :
  map fst (page_params ps o) = map fst ps /\
  assoc "resultOffset" (page_params ps o) = Some (PInt o) /\
  assoc "resultRecordCount" (page_params ps o) = Some (PInt record_limit) /\
  (forall k, k <> "resultOffset" -> k <> "resultRecordCount" ->
     assoc k (page_params ps o) = assoc k ps).
Proof.
  unfold page_params. split; [| split; [| split]].
  - rewrite map_fst_assoc_set by (apply in_map_fst_assoc_set; exact Hc).
    apply map_fst_assoc_set. exact Ho.
  - rewrite assoc_assoc_set_neq by discriminate. apply assoc_assoc_set_eq.
  - apply assoc_assoc_set_eq.
  - intros k H1 H2. rewrite !assoc_assoc_set_neq by assumption. reflexivity.
Qed.

Ltac prove_in := cbn; repeat (first [left; reflexivity | right]).

Lemma paging_sets_params_in_place_witness :
  In "resultOffset" (map fst (id_query_params "ObjectId" (SInt 41))) /\
  In "resultRecordCount" (map fst (id_query_params "ObjectId" (SInt 41))) /\
  map fst (page_params (id_query_params "ObjectId" (SInt 41)) 2000)
    = map fst (id_query_params "ObjectId" (SInt 41)) /\
  assoc "resultOffset" (page_params (id_query_params "ObjectId" (SInt 41)) 2000) = Some (PInt 2000) /\
  assoc "resultRecordCount" (page_params (id_query_params "ObjectId" (SInt 41)) 2000)
    = Some (PInt record_limit) /\
  (forall k, k <> "resultOffset" -> k <> "resultRecordCount" ->
     assoc k (page_params (id_query_params "ObjectId" (SInt 41)) 2000)
       = assoc k (id_query_params "ObjectId" (SInt 41))).
Proof.
  assert (Ho : In "resultOffset" (map fst (id_query_params "ObjectId" (SInt 41)))) by prove_in.
  assert (Hc : In "resultRecordCount" (map fst (id_query_params "ObjectId" (SInt 41)))) by prove_in.
  split; [exact Ho | split; [exact Hc |]].
  exact (paging_sets_params_in_place (id_query_params "ObjectId" (SInt 41)) 2000 Ho Hc).
Defined.

(** *** The summarizer *)

Lemma violation_summary_missing (df : frame) (i : nat) (c : string) :
  In c ["violation_number"; "complaint_type_name"; "violation"; "open_date";
        "violation_date"; "issued_to"] ->
  column df c = None -> violation_summary df i = Raise KeyError.
Proof.
  intros Hin Hc. unfold violation_summary, row_get.
  destruct Hin as [<- | [<- | [<- | [<- | [<- | [<- | []]]]]]]; rewrite Hc;
    repeat match goal with
           | |- context [match column df ?x with Some _ => _ | None => _ end] =>
               destruct (column df x)
           end; reflexivity.
Qed.

Lemma violation_summary_present (df : frame) (i : nat) :
  (forall c, In c ["violation_number"; "complaint_type_name"; "violation"; "open_date";
                   "violation_date"; "issued_to"] -> column df c <> None) ->
  exists s, violation_summary df i = Ok s.
Proof.
  intros H. unfold violation_summary, row_get.
  destruct (column df "violation_number") eqn:E1; [| exfalso; apply (H _ (or_introl eq_refl)); exact E1].
  destruct (column df "complaint_type_name") eqn:E2;
    [| exfalso; apply (H "complaint_type_name"); [simpl; tauto | exact E2]].
  destruct (column df "violation") eqn:E3;
    [| exfalso; apply (H "violation"); [simpl; tauto | exact E3]].
  destruct (column df "open_date") eqn:E4;
    [| exfalso; apply (H "open_date"); [simpl; tauto | exact E4]].
  destruct (column df "violation_date") eqn:E5;
    [| exfalso; apply (H "violation_date"); [simpl; tauto | exact E5]].
  destruct (column df "issued_to") eqn:E6;
    [| exfalso; apply (H "issued_to"); [simpl; tauto | exact E6]].
  eexists. reflexivity.
Qed.

Lemma res_map_all_ok {A B} (f : A -> res B) (l : list A) :
  (forall x, In x l -> exists y, f x = Ok y) ->
  exists ys, res_map f l = Ok ys /\ Forall2 (fun x y => f x = Ok y) l ys.
Proof.
  induction l as [| x l IH]; intros H; simpl.
  - exists []. split; [reflexivity | constructor].
  - destruct (H x (or_introl eq_refl)) as [y Hy].
    destruct IH as [ys [E Hall]]; [intros x' Hx'; apply H; right; exact Hx' |].
    exists (y :: ys). rewrite Hy, E. split; [reflexivity | constructor; assumption].
Qed.

(** X8: a non-empty violation frame lacking any of the six columns the
    summary reads makes [summarize_violations] raise [KeyError] without
    calling the oracle. *)
Theorem summarize_missing_column_raises (generate_content : string -> res string) (df : frame)
    (c : string) (He : df_empty df = false)
    (Hin : In c ["violation_number"; "complaint_type_name"; "violation"; "open_date";
                 "violation_date"; "issued_to"])
    (Hc : column df c = None) :
  summarize_violations generate_content df = (Raise KeyError, []).
Proof.
  unfold summarize_violations. rewrite He.
  destruct (nrows df) as [| n] eqn:N; [unfold df_empty in He; rewrite N in He; discriminate |].
  cbn [seq res_map]. rewrite (violation_summary_missing df 0 c Hin Hc). reflexivity.
Qed.

Lemma summarize_missing_column_raises_witness :
  df_empty (mkFrame 1 [("violation_number", [CVal (JInt 7001)])]) = false /\
  In "issued_to" ["violation_number"; "complaint_type_name"; "violation"; "open_date";
                  "violation_date"; "issued_to"] /\
  column (mkFrame 1 [("violation_number", [CVal (JInt 7001)])]) "issued_to" = None /\
  summarize_violations (fun p => Ok p) (mkFrame 1 [("violation_number", [CVal (JInt 7001)])])
    = (Raise KeyError, []).
Proof.
  assert (H2 : In "issued_to" ["violation_number"; "complaint_type_name"; "violation"; "open_date";
                               "violation_date"; "issued_to"]) by prove_in.
  split; [reflexivity | split; [exact H2 | split; [reflexivity |]]].
  apply (summarize_missing_column_raises _ _ "issued_to"); [reflexivity | exact H2 | reflexivity].
Defined.

(** X9: for a non-empty frame with the six columns, the oracle is called
    exactly once; its prompt holds the summaries of all rows, in row order,
    and its reply is the result. *)
Theorem summarize_calls_oracle_once (generate_content : string -> res string) (df : frame)
    (He : df_empty df = false)
    (Hcols : forall c, In c ["violation_number"; "complaint_type_name"; "violation"; "open_date";
                             "violation_date"; "issued_to"] -> column df c <> None) :
  exists summaries,
    Forall2 (fun i s => violation_summary df i = Ok s) (seq 0 (nrows df)) summaries /\
    summarize_violations generate_content df
      = (generate_content (summary_prompt (String.concat nl summaries)),
         [summary_prompt (String.concat nl summaries)]).
Proof.
  destruct (res_map_all_ok (violation_summary df) (seq 0 (nrows df)))
    as [ys [E Hall]]; [intros i _; apply violation_summary_present; exact Hcols |].
  exists ys. split; [exact Hall |].
  unfold summarize_violations. rewrite He, E. reflexivity.
Qed.

Lemma summarize_calls_oracle_once_witness :
  df_empty six_column_frame = false /\
  (forall c, In c ["violation_number"; "complaint_type_name"; "violation"; "open_date";
                   "violation_date"; "issued_to"] -> column six_column_frame c <> None) /\
  exists summaries,
    Forall2 (fun i s => violation_summary six_column_frame i = Ok s)
            (seq 0 (nrows six_column_frame)) summaries /\
    summarize_violations (fun p => Ok "summary") six_column_frame
      = ((fun p => Ok "summary") (summary_prompt (String.concat nl summaries)),
         [summary_prompt (String.concat nl summaries)]).
Proof.
  assert (H : forall c, In c ["violation_number"; "complaint_type_name"; "violation"; "open_date";
                              "violation_date"; "issued_to"] -> column six_column_frame c <> None).
  { intros c Hin. destruct Hin as [<- | [<- | [<- | [<- | [<- | [<- | []]]]]]]; discriminate. }
  split; [reflexivity | split; [exact H |]].
  apply summarize_calls_oracle_once; [reflexivity | exact H].
Defined.

(** *** The fetcher *)

(** X10: without pagination [fetch_data] issues exactly one request, with the
    caller's parameters as given (no offset or page size added). *)
Theorem fetch_without_pagination_one_request (fuel : nat) (http : string -> response)
    (base : string) (ps : params) (part : option string) (pag : option bool) (cap : option Z)
    (table_name : string) (Hp : truthy_bool pag = false) :
  snd (fetch_data (S fuel) http base ps part pag cap table_name) = [full_url base ps].
Proof.
  unfold fetch_data. rewrite Hp. cbn [fetch_loop negb].
  destruct (page_features _) as [[feats |] | e]; [| reflexivity | reflexivity].
  destruct (res_map _ _) as [records | e]; [| reflexivity].
  destruct cap as [c |]; [destruct (andb _ _) |]; reflexivity.
Qed.

Lemma fetch_without_pagination_one_request_witness :
  truthy_bool (Some false) = false /\
  snd (fetch_data 4 cv_server cv_base_url cv_params None (Some false) None "code_violations")
    = [full_url cv_base_url cv_params].
Proof.
  split; [reflexivity |].
  apply (fetch_without_pagination_one_request 3). reflexivity.
Defined.

Lemma py_in_raise (k : string) (v : json) (e : exn) : py_in k v = Raise e -> e = TypeError.
Proof. destruct v; simpl; intros H; try discriminate; injection H as <-; reflexivity. Qed.

Lemma getitem_raise (v : json) (k : string) (e : exn) :
  getitem v k = Raise e -> e = KeyError \/ e = TypeError.
Proof.
  destruct v; simpl; intros H; try (injection H as <-; right; reflexivity).
  destruct (assoc k kv); [discriminate | injection H as <-; left; reflexivity].
Qed.

Lemma py_iter_raise (v : json) (e : exn) : py_iter v = Raise e -> e = TypeError.
Proof. destruct v; simpl; intros H; try discriminate; injection H as <-; reflexivity. Qed.

(** Every exception raised while reading a page is one [fetch_data] catches. *)
Lemma page_features_raise_caught (r : response) (e : exn) :
  page_features r = Raise e -> caught e = true.
Proof.
  unfold page_features.
  destruct r as [| status body]; [intros H; injection H as <-; reflexivity |].
  destruct (andb _ _); [intros H; injection H as <-; reflexivity |].
  destruct body as [data |]; [| intros H; injection H as <-; reflexivity].
  assert (Hg : forall k v, getitem v k = Raise e -> caught e = true)
    by (intros k v H; destruct (getitem_raise v k e H) as [-> | ->]; reflexivity).
  destruct (negb (truthy data)); simpl; [discriminate |].
  destruct (py_in "features" data) as [has | e1] eqn:E1; simpl.
  2: { intros H. injection H as <-. rewrite (py_in_raise _ _ _ E1). reflexivity. }
  destruct (negb has); simpl; [discriminate |].
  destruct (getitem data "features") as [fs | e2] eqn:E2; simpl.
  2: { intros H. injection H as <-. exact (Hg _ _ E2). }
  destruct (negb (truthy fs)); simpl; [discriminate |].
  destruct (py_iter fs) as [feats | e3] eqn:E3; simpl; [discriminate |].
  intros H. injection H as <-. rewrite (py_iter_raise _ _ E3). reflexivity.
Qed.

Lemma fetch_loop_stops_at_raise (fuel : nat) (http : string -> response) (base : string)
    (ps : params) (part : option string) (pag : bool) (cap : option Z)
    (all_records : list json) (offset : Z) (tr : list string) :
  exists new, snd (fetch_loop fuel http base ps part pag cap all_records offset tr)
                = (tr ++ new)%list /\
    forall i u e, nth_error new i = Some u -> page_raises http part u e ->
      S i = List.length new /\
      fst (fetch_loop fuel http base ps part pag cap all_records offset tr) = Exn e.
Proof.
  revert ps all_records offset tr.
  induction fuel as [| fuel IH]; intros ps all_records offset tr.
  - exists []. split; [symmetry; apply app_nil_r |]. intros i u e Hu. destruct i; discriminate.
  - cbn [fetch_loop].
    set (ps' := if pag then page_params ps offset else ps).
    set (url := full_url base ps').
    assert (Hlast : forall i u e, nth_error [url] i = Some u -> page_raises http part u e ->
        S i = 1%nat /\ page_raises http part url e).
    { intros [| [| i]] u e Hu He; simpl in Hu; try discriminate.
      injection Hu as <-. split; [reflexivity | exact He]. }
    unfold page_raises in Hlast.
    destruct (page_features (http url)) as [[feats |] | e0] eqn:Hp.
    + destruct (res_map (flatten_feature part) feats) as [records | e1] eqn:Hr.
      * assert (Hrec : forall all' off',
          exists new, snd (fetch_loop fuel http base ps' part pag cap all' off' (tr ++ [url]))
                        = (tr ++ new)%list /\
            forall i u e, nth_error new i = Some u -> page_raises http part u e ->
              S i = List.length new /\
              fst (fetch_loop fuel http base ps' part pag cap all' off' (tr ++ [url])) = Exn e).
        { intros all' off'.
          destruct (IH ps' all' off' (tr ++ [url])%list) as [new [E Hs]].
          exists (url :: new). rewrite E, <- app_assoc. split; [reflexivity |].
          intros [| i] u e Hu He.
          - simpl in Hu. injection Hu as <-.
            destruct He as [He | [feats' [He Hr']]]; rewrite Hp in He; [discriminate |].
            injection He as <-. rewrite Hr in Hr'. discriminate.
          - destruct (Hs i u e Hu He) as [H1 H2]. split; [simpl; f_equal; exact H1 | exact H2]. }
        assert (Hno : forall i u e, nth_error [url] i = Some u -> page_raises http part u e -> False).
        { intros i u e Hu He. destruct (Hlast i u e Hu He) as [_ [H | [feats' [H Hr']]]];
            [discriminate |]. injection H as <-. rewrite Hr in Hr'. discriminate. }
        destruct cap as [c |]; [destruct (andb _ _) |]; try destruct (negb pag); try apply Hrec;
          exists [url]; split; try reflexivity;
          intros i u e Hu He; destruct (Hno i u e Hu He).
      * exists [url]. split; [reflexivity |].
        intros i u e Hu He. destruct (Hlast i u e Hu He) as [H1 [H | [feats' [H Hr']]]];
          [discriminate |].
        injection H as <-. rewrite Hr in Hr'. injection Hr' as <-. split; [exact H1 | reflexivity].
    + exists [url]. split; [reflexivity |].
      intros i u e Hu He. destruct (Hlast i u e Hu He) as [_ [H | [feats' [H _]]]]; discriminate.
    + exists [url]. split; [reflexivity |].
      intros i u e Hu He. destruct (Hlast i u e Hu He) as [H1 [H | [feats' [H _]]]];
        [| discriminate].
      injection H as <-. split; [exact H1 | reflexivity].
Qed.

(** X11: if any request [fetch_data] makes fails at the request or response
    level (connection error, HTTP 4xx/5xx status, a body that is not JSON, or
    a body whose ['features'] cannot be read), that request is the last one
    and [fetch_data] returns [None]: records from earlier pages are dropped. *)
Theorem fetch_failed_page_returns_none (fuel : nat) (http : string -> response) (base : string)
    (ps : params) (part : option string) (pag : option bool) (cap : option Z)
    (table_name : string) (i : nat) (u : string) (e : exn)
    (Hu : nth_error (snd (fetch_data fuel http base ps part pag cap table_name)) i = Some u)
    (He : page_features (http u) = Raise e) :
  S i = List.length (snd (fetch_data fuel http base ps part pag cap table_name)) /\
  fst (fetch_data fuel http base ps part pag cap table_name) = Done None.
Proof.
  unfold fetch_data in *.
  destruct (fetch_loop_stops_at_raise fuel http base ps part (truthy_bool pag) cap [] 0 [])
    as [new [E Hs]].
  destruct (fetch_loop fuel http base ps part (truthy_bool pag) cap [] 0 []) as [o tr].
  simpl in E, Hs, Hu |- *. subst tr.
  destruct (Hs i u e Hu (or_introl He)) as [H1 H2]. subst o.
  rewrite (page_features_raise_caught _ _ He). split; [exact H1 | reflexivity].
Qed.

(** A service whose first page holds the violation and whose next request fails. *)
Lemma fetch_failed_page_returns_none_witness :
  nth_error (snd (fetch_data 5 (fun u => if String.eqb u (full_url cv_base_url (page_params cv_params 0))
                                         then cv_server u else HttpResponse 503 None)
                    cv_base_url cv_params None (Some true) None "code_violations")) 1
    = Some (full_url cv_base_url (page_params cv_params 1000)) /\
  page_features ((fun u => if String.eqb u (full_url cv_base_url (page_params cv_params 0))
                           then cv_server u else HttpResponse 503 None)
                   (full_url cv_base_url (page_params cv_params 1000))) = Raise RequestException /\
  S 1 = List.length (snd (fetch_data 5 (fun u => if String.eqb u (full_url cv_base_url (page_params cv_params 0))
                                         then cv_server u else HttpResponse 503 None)
                    cv_base_url cv_params None (Some true) None "code_violations")) /\
  fst (fetch_data 5 (fun u => if String.eqb u (full_url cv_base_url (page_params cv_params 0))
                              then cv_server u else HttpResponse 503 None)
         cv_base_url cv_params None (Some true) None "code_violations") = Done None.
Proof.
  assert (H1 : nth_error (snd (fetch_data 5 (fun u => if String.eqb u (full_url cv_base_url (page_params cv_params 0))
                                         then cv_server u else HttpResponse 503 None)
                    cv_base_url cv_params None (Some true) None "code_violations")) 1
    = Some (full_url cv_base_url (page_params cv_params 1000))) by (vm_compute; reflexivity).
  assert (H2 : page_features ((fun u => if String.eqb u (full_url cv_base_url (page_params cv_params 0))
                           then cv_server u else HttpResponse 503 None)
                   (full_url cv_base_url (page_params cv_params 1000))) = Raise RequestException)
    by (vm_compute; reflexivity).
  split; [exact H1 | split; [exact H2 |]].
  exact (fetch_failed_page_returns_none _ _ _ _ _ _ _ _ 1 _ _ H1 H2).
Defined.

Lemma fetch_loop_done_paged (fuel : nat) (http : string -> response) (base : string)
    (ps : params) (part : option string) (all_records : list json) (offset : Z)
    (tr : list string) (recs : list json) (tr' : list string) :
  fetch_loop fuel http base ps part true None all_records offset tr = (Done recs, tr') ->
  exists featss recss,
    tr' = (tr ++ map (fun k => full_url base (page_params ps (offset + Z.of_nat k * record_limit)))
                     (seq 0 (S (List.length featss))))%list /\
    (forall k fs, nth_error featss k = Some fs ->
       page_features (http (full_url base (page_params ps (offset + Z.of_nat k * record_limit))))
         = Ok (Some fs)) /\
    page_features (http (full_url base (page_params ps
        (offset + Z.of_nat (List.length featss) * record_limit)))) = Ok None /\
    Forall2 (fun fs rs => res_map (flatten_feature part) fs = Ok rs) featss recss /\
    recs = (all_records ++ concat recss)%list.
Proof.
  revert ps all_records offset tr.
  induction fuel as [| fuel IH]; intros ps all_records offset tr; [discriminate |].
  cbn [fetch_loop negb].
  assert (H0 : full_url base (page_params ps offset)
               = full_url base (page_params ps (offset + Z.of_nat 0 * record_limit)))
    by (f_equal; f_equal; lia).
  destruct (page_features (http (full_url base (page_params ps offset)))) as [[feats |] | e] eqn:Hp;
    [| intros H; injection H as <- <- | discriminate].
  - destruct (res_map (flatten_feature part) feats) as [records |] eqn:Hr; [| discriminate].
    intros H. apply IH in H.
    destruct H as [featss [recss [Htr [Hk [Hlast [Hf Hall]]]]]].
    assert (Hs : forall k, full_url base (page_params (page_params ps offset)
                             (offset + record_limit + Z.of_nat k * record_limit))
                           = full_url base (page_params ps (offset + Z.of_nat (S k) * record_limit))).
    { intros k. rewrite page_params_twice. f_equal. f_equal. lia. }
    exists (feats :: featss), (records :: recss). split; [| split; [| split; [| split]]].
    + rewrite Htr, <- app_assoc. f_equal.
      change (seq 0 (S (List.length (feats :: featss))))
        with (0%nat :: seq 1 (S (List.length featss))).
      rewrite <- seq_shift, map_cons, map_map. cbn [app].
      f_equal; [exact H0 | apply map_ext; exact Hs].
    + intros [| k] fs Hfs; simpl in Hfs.
      * injection Hfs as <-. rewrite <- H0. exact Hp.
      * rewrite <- Hs. exact (Hk k fs Hfs).
    + cbn [List.length]. rewrite <- Hs. exact Hlast.
    + constructor; [exact Hr | exact Hf].
    + rewrite Hall, <- app_assoc. reflexivity.
  - exists [], []. split; [| split; [| split; [| split]]].
    + cbn [List.length seq map]. rewrite <- H0. reflexivity.
    + intros [| k] fs Hfs; discriminate.
    + cbn [List.length]. rewrite <- H0. exact Hp.
    + constructor.
    + symmetry. apply app_nil_r.
Qed.

Lemma concat_forall2_length (part : option string) (featss : list (list json))
    (recss : list (list json)) :
  Forall2 (fun fs rs => res_map (flatten_feature part) fs = Ok rs) featss recss ->
  List.length (concat recss) = List.length (concat featss).
Proof.
  induction 1 as [| fs rs featss recss Hr _ IH]; [reflexivity |].
  simpl. rewrite !length_app, IH, (res_map_length _ _ _ Hr). reflexivity.
Qed.

(** X12: when [fetch_data] pages with no cap and returns a table, it has
    requested the pages at offsets [0, 1000, 2000, ...] in order, every page
    but the last had features, the last one ended the data, and the table
    has one row per feature fetched (at least one). *)
Theorem paged_fetch_reads_until_end (fuel : nat) (http : string -> response) (base : string)
    (ps : params) (part : option string) (pag : option bool) (table_name : string) (df : frame)
    (Hpag : truthy_bool pag = true)
    (Hdf : fst (fetch_data fuel http base ps part pag None table_name) = Done (Some df)) :
  exists featss,
    snd (fetch_data fuel http base ps part pag None table_name)
      = map (fun k => full_url base (page_params ps (Z.of_nat k * record_limit)))
            (seq 0 (S (List.length featss))) /\
    (forall k fs, nth_error featss k = Some fs ->
       page_features (http (full_url base (page_params ps (Z.of_nat k * record_limit))))
         = Ok (Some fs)) /\
    page_features (http (full_url base (page_params ps
        (Z.of_nat (List.length featss) * record_limit)))) = Ok None /\
    nrows df = List.length (concat featss) /\
    (0 < nrows df)%nat.
Proof.
  unfold fetch_data in *. rewrite Hpag in *.
  destruct (fetch_loop fuel http base ps part true None [] 0 []) as [o tr] eqn:E.
  simpl in Hdf |- *.
  destruct o as [[| r rs] | e |]; try discriminate.
  - destruct (frame_of_records (r :: rs)) as [df0 |] eqn:Ef; [| discriminate].
    injection Hdf as <-.
    destruct (fetch_loop_done_paged _ _ _ _ _ _ _ _ _ _ E)
      as [featss [recss [Htr [Hk [Hlast [Hf Hall]]]]]].
    cbn [Z.add app] in Htr, Hk, Hlast.
    exists featss. split; [| split; [| split; [| split]]].
    + exact Htr.
    + exact Hk.
    + exact Hlast.
    + rewrite postprocess_nrows, (frame_of_records_nrows _ _ Ef), Hall.
      exact (concat_forall2_length _ _ _ Hf).
    + rewrite postprocess_nrows, (frame_of_records_nrows _ _ Ef). simpl. lia.
  - destruct (caught e); discriminate.
Qed.

Lemma paged_fetch_reads_until_end_witness :
  truthy_bool (Some true) = true /\
  fst (fetch_data 5 cv_server cv_base_url cv_params None (Some true) None "code_violations")
    = Done (Some cv_frame) /\
  exists featss,
    snd (fetch_data 5 cv_server cv_base_url cv_params None (Some true) None "code_violations")
      = map (fun k => full_url cv_base_url (page_params cv_params (Z.of_nat k * record_limit)))
            (seq 0 (S (List.length featss))) /\
    (forall k fs, nth_error featss k = Some fs ->
       page_features (cv_server (full_url cv_base_url (page_params cv_params (Z.of_nat k * record_limit))))
         = Ok (Some fs)) /\
    page_features (cv_server (full_url cv_base_url (page_params cv_params
        (Z.of_nat (List.length featss) * record_limit)))) = Ok None /\
    nrows cv_frame = List.length (concat featss) /\
    (0 < nrows cv_frame)%nat.
Proof.
  assert (H : fst (fetch_data 5 cv_server cv_base_url cv_params None (Some true) None "code_violations")
              = Done (Some cv_frame)) by (vm_compute; reflexivity).
  split; [reflexivity | split; [exact H |]].
  exact (paged_fetch_reads_until_end _ _ _ _ _ (Some true) _ _ eq_refl H).
Defined.

(** X13: if flattening the features of some page [fetch_data] requested
    raises, that request is the last one; [fetch_data] returns [None] when the
    exception is one its [try] catches ([KeyError], [TypeError]), and
    otherwise the exception escapes.  Records of earlier pages are dropped. *)
Theorem failed_flatten_ends_fetch (fuel : nat) (http : string -> response) (base : string)
    (ps : params) (part : option string) (pag : option bool) (cap : option Z)
    (table_name : string) (i : nat) (u : string) (feats : list json) (e : exn)
    (Hu : nth_error (snd (fetch_data fuel http base ps part pag cap table_name)) i = Some u)
    (Hp : page_features (http u) = Ok (Some feats))
    (Hr : res_map (flatten_feature part) feats = Raise e) :
  S i = List.length (snd (fetch_data fuel http base ps part pag cap table_name)) /\
  fst (fetch_data fuel http base ps part pag cap table_name)
    = (if caught e then Done None else Exn e).
Proof.
  unfold fetch_data in *.
  destruct (fetch_loop_stops_at_raise fuel http base ps part (truthy_bool pag) cap [] 0 [])
    as [new [E Hs]].
  destruct (fetch_loop fuel http base ps part (truthy_bool pag) cap [] 0 []) as [o tr].
  simpl in E, Hs, Hu |- *. subst tr.
  destruct (Hs i u e Hu (or_intror (ex_intro _ feats (conj Hp Hr)))) as [H1 H2]. subst o.
  split; [exact H1 | reflexivity].
Qed.

Lemma failed_flatten_ends_fetch_witness :
  nth_error (snd (fetch_data 5 one_coordinate_server cv_base_url cv_params None (Some true) None
                    "code_violations")) 0
    = Some (full_url cv_base_url (page_params cv_params 0)) /\
  page_features (one_coordinate_server (full_url cv_base_url (page_params cv_params 0)))
    = Ok (Some [JObj [("attributes", JObj [("OBJECTID", JInt 1)]);
                      ("geometry", JObj [("coordinates", JArr [JInt 76])])]]) /\
  res_map (flatten_feature None) [JObj [("attributes", JObj [("OBJECTID", JInt 1)]);
                                        ("geometry", JObj [("coordinates", JArr [JInt 76])])]]
    = Raise IndexError /\
  S 0 = List.length (snd (fetch_data 5 one_coordinate_server cv_base_url cv_params None
                            (Some true) None "code_violations")) /\
  fst (fetch_data 5 one_coordinate_server cv_base_url cv_params None (Some true) None
         "code_violations") = (if caught IndexError then Done None else Exn IndexError).
Proof.
  assert (H1 : nth_error (snd (fetch_data 5 one_coordinate_server cv_base_url cv_params None
                                 (Some true) None "code_violations")) 0
               = Some (full_url cv_base_url (page_params cv_params 0))) by (vm_compute; reflexivity).
  assert (H2 : page_features (one_coordinate_server (full_url cv_base_url (page_params cv_params 0)))
    = Ok (Some [JObj [("attributes", JObj [("OBJECTID", JInt 1)]);
                      ("geometry", JObj [("coordinates", JArr [JInt 76])])]])) by reflexivity.
  assert (H3 : res_map (flatten_feature None) [JObj [("attributes", JObj [("OBJECTID", JInt 1)]);
                                        ("geometry", JObj [("coordinates", JArr [JInt 76])])]]
    = Raise IndexError) by reflexivity.
  split; [exact H1 | split; [exact H2 | split; [exact H3 |]]].
  exact (failed_flatten_ends_fetch _ _ _ _ _ _ _ _ 0 _ _ _ H1 H2 H3).
Defined.

(** *** Flattening a feature *)

Lemma assoc_set_keys_prefix {A} (k : string) (v : A) (l : list (string * A)) :
  exists s, map fst (assoc_set k v l) = (map fst l ++ s)%list.
Proof.
  induction l as [| [k' x] l [s IH]]; simpl; [exists [k]; reflexivity |].
  destruct (String.eqb_spec k k') as [-> | Hk]; simpl.
  - exists []. rewrite app_nil_r. reflexivity.
  - exists s. rewrite IH. reflexivity.
Qed.

Lemma assoc_some_truthy (k : string) (x : json) (kv : list (string * json)) :
  assoc k kv = Some x -> truthy (JObj kv) = true.
Proof. destruct kv; [discriminate | reflexivity]. Qed.

(** The coordinate step of the loop body: the properties stay a dict whose
    keys keep their order, with only [longitude] and [latitude] changed. *)
Lemma flatten_geometry_step (geometry : json) (attrs : list (string * json)) (p : json) :
  (if truthy geometry then
     coordinates <- dict_get geometry "coordinates" (JArr []) ;;
     if truthy coordinates then
       lon <- getidx coordinates 0 ;;
       properties <- setitem (JObj attrs) "longitude" lon ;;
       lat <- getidx coordinates 1 ;;
       setitem properties "latitude" lat
     else Ok (JObj attrs)
   else Ok (JObj attrs)) = Ok p ->
  exists kv, p = JObj kv /\ (exists s, map fst kv = (map fst attrs ++ s)%list) /\
    forall k, k <> "longitude" -> k <> "latitude" -> assoc k kv = assoc k attrs.
Proof.
  assert (Hid : exists kv, JObj attrs = JObj kv /\ (exists s, map fst kv = (map fst attrs ++ s)%list) /\
                  forall k, k <> "longitude" -> k <> "latitude" -> assoc k kv = assoc k attrs)
    by (exists attrs; split; [reflexivity | split; [exists []; symmetry; apply app_nil_r | reflexivity]]).
  destruct (truthy geometry); [| intros H; injection H as <-; exact Hid].
  destruct (dict_get geometry "coordinates" (JArr [])) as [c |]; simpl; [| discriminate].
  destruct (truthy c); [| intros H; injection H as <-; exact Hid].
  destruct (getidx c 0) as [lon |]; simpl; [| discriminate].
  destruct (getidx c 1) as [lat |]; simpl; [| discriminate].
  intros H. injection H as <-.
  eexists. split; [reflexivity | split].
  - destruct (assoc_set_keys_prefix "longitude" lon attrs) as [s1 E1].
    destruct (assoc_set_keys_prefix "latitude" lat (assoc_set "longitude" lon attrs)) as [s2 E2].
    exists (s1 ++ s2)%list. rewrite E2, E1, app_assoc. reflexivity.
  - intros k H1 H2. rewrite !assoc_assoc_set_neq by assumption. reflexivity.
Qed.

(** X14: flattening a feature whose ['attributes'] is a dict gives a dict
    that keeps the attribute keys in their order (new keys come after them)
    and every attribute value, except [longitude], [latitude], and [part]
    when a non-empty part type is given, which is then set to that part type. *)
Theorem flatten_feature_keeps_attributes (part : option string) (feature : json)
    (attrs : list (string * json)) (r : json)
    (Ha : getitem feature "attributes" = Ok (JObj attrs))
    (Hf : flatten_feature part feature = Ok r) :
  exists kv, r = JObj kv /\
    (exists s, map fst kv = (map fst attrs ++ s)%list) /\
    (forall k, k <> "longitude" -> k <> "latitude" -> (k = "part" -> truthy_str part = false) ->
       assoc k kv = assoc k attrs) /\
    (forall p, part = Some p -> p <> "" -> assoc "part" kv = Some (JStr p)).
Proof.
  unfold flatten_feature in Hf. rewrite Ha in Hf. cbn [res_bind] in Hf.
  destruct feature as [| | | | | fkv]; try discriminate Ha.
  cbn [dict_get res_bind] in Hf.
  destruct (if truthy _ then _ else _) as [props |] eqn:Eg in Hf; [| discriminate].
  destruct (flatten_geometry_step _ _ _ Eg) as [kv [-> [[s Hs] Hk]]].
  destruct part as [p |].
  - destruct (truthy_str (Some p)) eqn:Ht.
    + cbn [setitem] in Hf. injection Hf as <-.
      eexists. split; [reflexivity | split; [| split]].
      * destruct (assoc_set_keys_prefix "part" (JStr p) kv) as [s' E].
        exists (s ++ s')%list. rewrite E, Hs, app_assoc. reflexivity.
      * intros k H1 H2 H3. destruct (String.eqb_spec k "part") as [-> | Hne].
        -- specialize (H3 eq_refl). congruence.
        -- rewrite assoc_assoc_set_neq by exact Hne. exact (Hk k H1 H2).
      * intros p' Hp' _. injection Hp' as <-. apply assoc_assoc_set_eq.
    + injection Hf as <-. eexists. split; [reflexivity | split; [exists s; exact Hs | split]].
      * intros k H1 H2 _. exact (Hk k H1 H2).
      * intros p' Hp' Hne. injection Hp' as <-.
        unfold truthy_str in Ht. destruct (String.eqb_spec p ""); [contradiction | discriminate].
  - injection Hf as <-. eexists. split; [reflexivity | split; [exists s; exact Hs | split]].
    + intros k H1 H2 _. exact (Hk k H1 H2).
    + intros p' Hp'. discriminate.
Qed.

Lemma flatten_feature_keeps_attributes_witness :
  getitem violation_feature "attributes"
    = Ok (JObj [("violation_number", JInt 7001); ("violation_date", JInt violation_ms)]) /\
  flatten_feature (Some "Part 1") violation_feature
    = Ok (JObj [("violation_number", JInt 7001); ("violation_date", JInt violation_ms);
                ("part", JStr "Part 1")]) /\
  exists kv, JObj [("violation_number", JInt 7001); ("violation_date", JInt violation_ms);
                   ("part", JStr "Part 1")] = JObj kv /\
    (exists s, map fst kv = (map fst [("violation_number", JInt 7001);
                                      ("violation_date", JInt violation_ms)] ++ s)%list) /\
    (forall k, k <> "longitude" -> k <> "latitude" -> (k = "part" -> truthy_str (Some "Part 1") = false) ->
       assoc k kv = assoc k [("violation_number", JInt 7001); ("violation_date", JInt violation_ms)]) /\
    (forall p, Some "Part 1" = Some p -> p <> "" -> assoc "part" kv = Some (JStr p)).
Proof.
  assert (H1 : getitem violation_feature "attributes"
    = Ok (JObj [("violation_number", JInt 7001); ("violation_date", JInt violation_ms)])) by reflexivity.
  assert (H2 : flatten_feature (Some "Part 1") violation_feature
    = Ok (JObj [("violation_number", JInt 7001); ("violation_date", JInt violation_ms);
                ("part", JStr "Part 1")])) by reflexivity.
  split; [exact H1 | split; [exact H2 |]].
  exact (flatten_feature_keeps_attributes _ _ _ _ H1 H2).
Defined.

(** X15: a feature (a dict) whose ['attributes'] is a dict and whose geometry
    is a dict with a [coordinates] list of at least two elements is flattened
    successfully, with [longitude] the first
    coordinate and [latitude] the second. *)
Theorem flatten_feature_promotes_coordinates (part : option string)
    (fkv attrs g : list (string * json)) (x y : json) (rest : list json)
    (Ha : assoc "attributes" fkv = Some (JObj attrs))
    (Hg : assoc "geometry" fkv = Some (JObj g))
    (Hc : assoc "coordinates" g = Some (JArr (x :: y :: rest))) :
  exists kv, flatten_feature part (JObj fkv) = Ok (JObj kv) /\
    assoc "longitude" kv = Some x /\ assoc "latitude" kv = Some y.
Proof.
  unfold flatten_feature. cbn [getitem dict_get]. rewrite Ha, Hg. cbn [res_bind].
  rewrite (assoc_some_truthy _ _ _ Hc). cbn [dict_get res_bind]. rewrite Hc.
  cbn [truthy getidx nth_error setitem res_bind negb List.length Nat.eqb].
  set (kv := assoc_set "latitude" y (assoc_set "longitude" x attrs)).
  assert (Hlon : assoc "longitude" kv = Some x)
    by (unfold kv; rewrite assoc_assoc_set_neq by discriminate; apply assoc_assoc_set_eq).
  assert (Hlat : assoc "latitude" kv = Some y) by apply assoc_assoc_set_eq.
  destruct part as [p |]; [destruct (truthy_str (Some p)) |].
  - eexists. split; [reflexivity |].
    rewrite !(assoc_assoc_set_neq _ "part") by discriminate. split; assumption.
  - exists kv. split; [reflexivity | split; assumption].
  - exists kv. split; [reflexivity | split; assumption].
Qed.

Lemma flatten_feature_promotes_coordinates_witness :
  assoc "attributes" [("attributes", JObj [("OBJECTID", JInt 1)]);
                      ("geometry", JObj [("coordinates", JArr [JInt (-76); JInt 43])])]
    = Some (JObj [("OBJECTID", JInt 1)]) /\
  assoc "geometry" [("attributes", JObj [("OBJECTID", JInt 1)]);
                    ("geometry", JObj [("coordinates", JArr [JInt (-76); JInt 43])])]
    = Some (JObj [("coordinates", JArr [JInt (-76); JInt 43])]) /\
  assoc "coordinates" [("coordinates", JArr [JInt (-76); JInt 43])] = Some (JArr [JInt (-76); JInt 43]) /\
  exists kv, flatten_feature (Some "Part 2")
               (JObj [("attributes", JObj [("OBJECTID", JInt 1)]);
                      ("geometry", JObj [("coordinates", JArr [JInt (-76); JInt 43])])]) = Ok (JObj kv) /\
    assoc "longitude" kv = Some (JInt (-76)) /\ assoc "latitude" kv = Some (JInt 43).
Proof.
  assert (H1 : assoc "attributes" [("attributes", JObj [("OBJECTID", JInt 1)]);
                      ("geometry", JObj [("coordinates", JArr [JInt (-76); JInt 43])])]
    = Some (JObj [("OBJECTID", JInt 1)])) by reflexivity.
  assert (H2 : assoc "geometry" [("attributes", JObj [("OBJECTID", JInt 1)]);
                    ("geometry", JObj [("coordinates", JArr [JInt (-76); JInt 43])])]
    = Some (JObj [("coordinates", JArr [JInt (-76); JInt 43])])) by reflexivity.
  assert (H3 : assoc "coordinates" [("coordinates", JArr [JInt (-76); JInt 43])]
    = Some (JArr [JInt (-76); JInt 43])) by reflexivity.
  split; [exact H1 | split; [exact H2 | split; [exact H3 |]]].
  exact (flatten_feature_promotes_coordinates (Some "Part 2") _ _ _ _ _ [] H1 H2 H3).
Defined.

(** *** The address lookup *)

Lemma matched_some (d a : json) : matched d = Ok (Some a) -> truthy a = true.
Proof.
  unfold matched. destruct (truthy d); [| discriminate].
  destruct (getitem d "matched_database_address") as [a' |]; simpl; [| discriminate].
  destruct (truthy a') eqn:Ht; intros H; [injection H as <-; exact Ht | discriminate].
Qed.

Lemma summarize_prompts_le1 (generate_content : string -> res string) (df : frame) :
  (List.length (snd (summarize_violations generate_content df)) <= 1)%nat.
Proof.
  unfold summarize_violations. destruct (df_empty df); [simpl; lia |].
  destruct (res_map _ _); simpl; lia.
Qed.

(** X16: whatever the models reply, [main] queries at most two addresses,
    each the truthy matched address of one of the two replies, never the same
    address twice (the second is not [==] the first); it sends at most one
    prompt to the summary model, and none when no address was queried. *)
Theorem main_queries_distinct_matches (reply : string -> string -> option json)
    (read_violations : json -> frame) (generate_content : string -> res string)
    (prop_add complaint_addresses input_address : string) :
  let '(_, queried, prompts) :=
    main reply read_violations generate_content prop_add complaint_addresses input_address in
  (forall a, In a queried ->
     truthy a = true /\
     (matched (process_address reply input_address prop_add) = Ok (Some a) \/
      matched (process_address reply input_address complaint_addresses) = Ok (Some a))) /\
  (List.length queried <= 2)%nat /\
  (forall a b, queried = [a; b] -> py_eq b a = false) /\
  (List.length prompts <= 1)%nat /\
  (queried = [] -> prompts = []).
Proof.
  unfold main.
  destruct (String.eqb input_address "").
  { repeat split; simpl; intros; try lia; try contradiction; discriminate. }
  set (dp := process_address reply input_address prop_add).
  set (dc := process_address reply input_address complaint_addresses).
  destruct (_ <- show_result dp ;; show_result dc) as [_ |].
  2: { repeat split; simpl; intros; try lia; try contradiction; discriminate. }
  destruct (matched dp) as [mp | e] eqn:Ep.
  2: { repeat split; simpl; intros; try lia; try contradiction; discriminate. }
  destruct (matched dc) as [mc | e] eqn:Ec.
  2: { destruct mp as [a |].
       - split; [| split; [simpl; lia | split; [intros x y H; discriminate |
                                               split; [simpl; lia | intros _; reflexivity]]]].
         intros x [<- | []]. split; [exact (matched_some _ _ Ep) | left; reflexivity].
       - repeat split; simpl; intros; try lia; try contradiction; discriminate. }
  set (qs := match mc with
             | Some a => if existsb (py_eq a) (match mp with Some a => [a] | None => [] end)
                         then match mp with Some a => [a] | None => [] end
                         else (match mp with Some a => [a] | None => [] end ++ [a])%list
             | None => match mp with Some a => [a] | None => [] end
             end).
  assert (Hq : (forall a, In a qs ->
                 truthy a = true /\ (Ok mp = Ok (Some a) \/ Ok mc = Ok (Some a))) /\
               (List.length qs <= 2)%nat /\
               (forall a b, qs = [a; b] -> py_eq b a = false)).
  { unfold qs. destruct mp as [a |], mc as [b |]; simpl.
    - destruct (py_eq b a || false)%bool eqn:Eb; simpl.
      + split; [| split; [lia | intros x y H; discriminate]].
        intros x [<- | []]. split; [exact (matched_some _ _ Ep) | left; reflexivity].
      + split; [| split; [lia |]].
        * intros x [<- | [<- | []]];
            [split; [exact (matched_some _ _ Ep) | left; reflexivity]
            | split; [exact (matched_some _ _ Ec) | right; reflexivity]].
        * intros x y H. injection H as <- <-. rewrite Bool.orb_false_r in Eb.
          destruct (py_eq b a); [discriminate | reflexivity].
    - split; [| split; [lia | intros x y H; discriminate]].
      intros x [<- | []]. split; [exact (matched_some _ _ Ep) | left; reflexivity].
    - split; [| split; [lia | intros x y H; discriminate]].
      intros x [<- | []]. split; [exact (matched_some _ _ Ec) | right; reflexivity].
    - split; [intros x [] | split; [lia | intros x y H; discriminate]]. }
  fold qs. destruct Hq as [Hin [Hlen Hdist]].
  destruct qs as [| q qs'] eqn:Eqs.
  - repeat split; simpl; intros; try lia; try contradiction; discriminate.
  - pose proof (summarize_prompts_le1 generate_content
                  (frame_concat (map read_violations (q :: qs')))) as Hp.
    destruct (summarize_violations _ _) as [summary prompts].
    simpl in Hp. split; [exact Hin | split; [exact Hlen | split; [exact Hdist |]]].
    split; [exact Hp | discriminate].
Qed.

(** X17: when each reply is displayed without error (it is falsy, or a dict
    holding the six displayed keys) and neither names a matched address (a
    reply that is not JSON, an empty reply, or a full reply whose
    [matched_database_address] is empty), [main] writes "No matching addresses found to summarize
    violations.", queries no address and sends no prompt to the summary
    model. *)
Theorem main_no_match_no_query (reply : string -> string -> option json)
    (read_violations : json -> frame) (generate_content : string -> res string)
    (prop_add complaint_addresses input_address : string) (sp sc : list json)
    (Hin : input_address <> "")
    (Hsp : show_result (process_address reply input_address prop_add) = Ok sp)
    (Hsc : show_result (process_address reply input_address complaint_addresses) = Ok sc)
    (Hmp : matched (process_address reply input_address prop_add) = Ok None)
    (Hmc : matched (process_address reply input_address complaint_addresses) = Ok None) :
  main reply read_violations generate_content prop_add complaint_addresses input_address
    = (Ok (Some "No matching addresses found to summarize violations."), [], []).
Proof.
  unfold main. destruct (String.eqb_spec input_address "") as [| _]; [contradiction |].
  cbv zeta. rewrite Hsp. cbn [res_bind]. rewrite Hsc, Hmp, Hmc. reflexivity.
Qed.

Lemma main_no_match_no_query_witness :
  "301 Oak St" <> "" /\
  show_result (process_address no_match_reply "301 Oak St" "100 Elm St")
    = Ok [JStr ""; JInt 0; JStr "No match"; JBool false; JStr ""; JStr "301 Oak St"] /\
  show_result (process_address no_match_reply "301 Oak St" "200 Pine St")
    = Ok [JStr ""; JInt 0; JStr "No match"; JBool false; JStr ""; JStr "301 Oak St"] /\
  matched (process_address no_match_reply "301 Oak St" "100 Elm St") = Ok None /\
  matched (process_address no_match_reply "301 Oak St" "200 Pine St") = Ok None /\
  main no_match_reply (fun _ => mkFrame 0 []) (fun _ => Ok "summary") "100 Elm St" "200 Pine St"
    "301 Oak St" = (Ok (Some "No matching addresses found to summarize violations."), [], []).
Proof.
  assert (H0 : "301 Oak St" <> "") by discriminate.
  assert (H1 : show_result (process_address no_match_reply "301 Oak St" "100 Elm St")
    = Ok [JStr ""; JInt 0; JStr "No match"; JBool false; JStr ""; JStr "301 Oak St"]) by reflexivity.
  assert (H2 : show_result (process_address no_match_reply "301 Oak St" "200 Pine St")
    = Ok [JStr ""; JInt 0; JStr "No match"; JBool false; JStr ""; JStr "301 Oak St"]) by reflexivity.
  assert (H3 : matched (process_address no_match_reply "301 Oak St" "100 Elm St") = Ok None)
    by reflexivity.
  assert (H4 : matched (process_address no_match_reply "301 Oak St" "200 Pine St") = Ok None)
    by reflexivity.
  split; [exact H0 | split; [exact H1 | split; [exact H2 | split; [exact H3 | split; [exact H4 |]]]]].
  exact (main_no_match_no_query _ _ _ _ _ _ _ _ H0 H1 H2 H3 H4).
Defined.

Lemma getitems_obj_missing (kv : list (string * json)) (k : string) (ks : list string) :
  In k ks -> assoc k kv = None -> res_map (getitem (JObj kv)) ks = Raise KeyError.
Proof.
  intros Hk Hmiss. induction ks as [| k' ks IH]; [destruct Hk |]. simpl.
  destruct (assoc k' kv) as [x |] eqn:E; simpl; [| reflexivity].
  destruct Hk as [-> | Hk]; [congruence |]. rewrite (IH Hk). reflexivity.
Qed.

Lemma getitems_obj_raise (kv : list (string * json)) (ks : list string) (e : exn) :
  res_map (getitem (JObj kv)) ks = Raise e -> e = KeyError.
Proof.
  induction ks as [| k ks IH]; simpl; [discriminate |].
  destruct (assoc k kv); simpl; [| intros H; injection H as <-; reflexivity].
  destruct (res_map _ ks); simpl; [discriminate | exact IH].
Qed.

(** X18: if one of the two replies is a non-empty dict that lacks one of the
    six keys [main] displays, and each reply is either falsy or a dict, [main]
    raises [KeyError] before querying any address or prompting the summary
    model. *)
Theorem main_missing_display_key_raises (reply : string -> string -> option json)
    (read_violations : json -> frame) (generate_content : string -> res string)
    (prop_add complaint_addresses input_address : string) (kv : list (string * json)) (k : string)
    (Hin : input_address <> "")
    (Hkv : process_address reply input_address prop_add = JObj kv \/
           process_address reply input_address complaint_addresses = JObj kv)
    (Hne : kv <> []) (Hk : In k shown_keys) (Hmiss : assoc k kv = None)
    (Hdicts : forall d, d = process_address reply input_address prop_add \/
                        d = process_address reply input_address complaint_addresses ->
                        truthy d = true -> exists kv', d = JObj kv') :
  main reply read_violations generate_content prop_add complaint_addresses input_address
    = (Raise KeyError, [], []).
Proof.
  assert (Hmissing : show_result (JObj kv) = Raise KeyError).
  { unfold show_result. destruct kv as [| p kv']; [contradiction |].
    exact (getitems_obj_missing _ _ _ Hk Hmiss). }
  unfold main. destruct (String.eqb_spec input_address "") as [| _]; [contradiction |].
  cbv zeta.
  destruct Hkv as [Hp | Hc].
  - rewrite Hp, Hmissing. reflexivity.
  - destruct (show_result (process_address reply input_address prop_add)) as [sp | e] eqn:Es.
    + cbn [res_bind]. rewrite Hc, Hmissing. reflexivity.
    + unfold show_result in Es.
      destruct (truthy (process_address reply input_address prop_add)) eqn:Ht; [| discriminate].
      destruct (Hdicts _ (or_introl eq_refl) Ht) as [kv' Hd]. rewrite Hd in Es.
      rewrite (getitems_obj_raise _ _ _ Es). reflexivity.
Qed.

Lemma main_missing_display_key_raises_witness :
  "301 Oak St" <> "" /\
  process_address partial_reply "301 Oak St" "100 Elm St"
    = JObj [("match", JBool true); ("original_address", JStr "301 Oak St");
            ("cleaned_address", JStr "301 Oak St"); ("matched_database_address", JStr "301 OAK ST");
            ("explanation", JStr "Exact match")] /\
  In "confidence" shown_keys /\
  assoc "confidence" [("match", JBool true); ("original_address", JStr "301 Oak St");
            ("cleaned_address", JStr "301 Oak St"); ("matched_database_address", JStr "301 OAK ST");
            ("explanation", JStr "Exact match")] = None /\
  main partial_reply (fun _ => mkFrame 0 []) (fun _ => Ok "summary") "100 Elm St" "200 Pine St"
    "301 Oak St" = (Raise KeyError, [], []).
Proof.
  assert (H0 : "301 Oak St" <> "") by discriminate.
  assert (H1 : process_address partial_reply "301 Oak St" "100 Elm St"
    = JObj [("match", JBool true); ("original_address", JStr "301 Oak St");
            ("cleaned_address", JStr "301 Oak St"); ("matched_database_address", JStr "301 OAK ST");
            ("explanation", JStr "Exact match")]) by reflexivity.
  assert (H2 : In "confidence" shown_keys) by (simpl; tauto).
  assert (H3 : assoc "confidence" [("match", JBool true); ("original_address", JStr "301 Oak St");
            ("cleaned_address", JStr "301 Oak St"); ("matched_database_address", JStr "301 OAK ST");
            ("explanation", JStr "Exact match")] = None) by reflexivity.
  assert (Hd : forall d, d = process_address partial_reply "301 Oak St" "100 Elm St" \/
                         d = process_address partial_reply "301 Oak St" "200 Pine St" ->
                         truthy d = true -> exists kv', d = JObj kv')
    by (intros d [-> | ->] _; eexists; reflexivity).
  split; [exact H0 | split; [exact H1 | split; [exact H2 | split; [exact H3 |]]]].
  exact (main_missing_display_key_raises _ _ _ _ _ _ _ _ H0 (or_introl H1) ltac:(discriminate)
           H2 H3 Hd).
Defined.
























Lemma parse_iso_not_empty : parse_iso "" = None.
Proof. reflexivity. Qed.



